(** * HAGPT: response interpretation and service dispatch

    A shallow embedding of [src/hagpt.py]: the reply parser
    [_clean_ai_response] and the dispatcher [_call_ha_service] with its two
    virtual-entity helpers, followed by the properties of the specification
    that concern them.

    Python values are an inductive type, Python strings are lists of code
    points, dictionaries are insertion-ordered association lists.  Exceptions
    are an explicit [outcome]; the preference store and the network are a
    [world] that is threaded through the dispatcher and that records every
    effect in a trace.  Calls to [logging] only write to the log file and are
    left out. *)

From Stdlib Require Import List ZArith NArith Bool Lia String Ascii.
From Stdlib Require Import DecimalString.
From Stdlib Require Floats.SpecFloat.
Import ListNotations.

Set Warnings "-register-all".
Local Open Scope list_scope.
Local Open Scope bool_scope.

(** ** Strings *)

(** A Python [str] is a sequence of Unicode code points. *)
Definition pystr := list N.

(** [py "abc"] is the Python literal ["abc"] (ASCII literals only). *)
Definition py (s : string) : pystr :=
  map N_of_ascii (list_ascii_of_string s).

Fixpoint str_eqb (a b : pystr) : bool :=
  match a, b with
  | [], [] => true
  | x :: a', y :: b' => N.eqb x y && str_eqb a' b'
  | _, _ => false
  end.

(** [s.startswith(p)] *)
Fixpoint startswith (s p : pystr) {struct p} : bool :=
  match p, s with
  | [], _ => true
  | y :: p', x :: s' => N.eqb x y && startswith s' p'
  | _ :: _, [] => false
  end.

(** [str.isspace] on one code point: the characters [str.strip()] removes. *)
Definition isspace (c : N) : bool :=
  ((9 <=? c) && (c <=? 13) || (28 <=? c) && (c <=? 32)
   || (c =? 133) || (c =? 160) || (c =? 5760)
   || (8192 <=? c) && (c <=? 8202)
   || (c =? 8232) || (c =? 8233) || (c =? 8239) || (c =? 8287)
   || (c =? 12288))%N.

Fixpoint lstrip (s : pystr) : pystr :=
  match s with
  | c :: r => if isspace c then lstrip r else s
  | [] => []
  end.

Definition rstrip (s : pystr) : pystr := rev (lstrip (rev s)).

(** [s.strip()] *)
Definition strip (s : pystr) : pystr := rstrip (lstrip s).

(** [s.split(sep, 1)] for a one-character separator: [None] when the
    separator does not occur (the list has one element), otherwise the text
    before and after its first occurrence. *)
Fixpoint split_once (sep : N) (s : pystr) : option (pystr * pystr) :=
  match s with
  | [] => None
  | c :: r =>
      if N.eqb c sep then Some ([], r)
      else match split_once sep r with
           | Some (a, b) => Some (c :: a, b)
           | None => None
           end
  end.

(** [str(n)] for an [int]. *)
Definition str_of_int (n : Z) : pystr :=
  py (NilZero.string_of_int (Z.to_int n)).

(** ** Values *)

(** A binary64 number. *)
Definition pyfloat := SpecFloat.spec_float.

Inductive pyval :=
| PNone
| PBool (b : bool)
| PInt (n : Z)
| PFloat (f : pyfloat)
| PStr (s : pystr)
| PList (l : list pyval)
| PDict (d : list (pystr * pyval)).

Definition dict := list (pystr * pyval).

(** [d.get(k)]: the value, or [None]. *)
Fixpoint dict_get (d : dict) (k : pystr) : pyval :=
  match d with
  | [] => PNone
  | (k', v) :: r => if str_eqb k' k then v else dict_get r k
  end.

(** [d.get(k, default)] *)
Fixpoint dict_get_default (d : dict) (k : pystr) (default : pyval) : pyval :=
  match d with
  | [] => default
  | (k', v) :: r => if str_eqb k' k then v else dict_get_default r k default
  end.

(** [d[k] = v]: an existing key keeps its place, a new one goes last. *)
Fixpoint dict_set (d : dict) (k : pystr) (v : pyval) : dict :=
  match d with
  | [] => [(k, v)]
  | (k', v') :: r =>
      if str_eqb k' k then (k', v) :: r else (k', v') :: dict_set r k v
  end.

(** [d.update(e)] *)
Definition dict_update (d e : dict) : dict :=
  fold_left (fun acc kv => dict_set acc (fst kv) (snd kv)) e d.

(** Truth value of a dictionary: non-empty. *)
Definition dict_truthy (d : dict) : bool :=
  match d with [] => false | _ :: _ => true end.

(** [v == "literal"] *)
Definition eq_str (v : pyval) (s : pystr) : bool :=
  match v with PStr t => str_eqb t s | _ => false end.

(** ** Exceptions *)

Inductive exn :=
| ValueError
| TypeError
| AttributeError
| OverflowError
| JSONDecodeError.

Inductive outcome (A : Type) :=
| Return (a : A)
| Raise (e : exn).
Arguments Return {A} a.
Arguments Raise {A} e.

(** ** The reply parser *)

(** [re.sub(r'^```[a-zA-Z]*\n?', '', s)]: the pattern can only match at
    position 0; both quantifiers are greedy and nothing follows them. *)
Definition is_ascii_letter (c : N) : bool :=
  ((65 <=? c) && (c <=? 90) || (97 <=? c) && (c <=? 122))%N.

Fixpoint drop_letters (s : pystr) : pystr :=
  match s with
  | c :: r => if is_ascii_letter c then drop_letters r else s
  | [] => []
  end.

Definition drop_newline (s : pystr) : pystr :=
  match s with
  | c :: r => if N.eqb c 10 then r else s
  | [] => []
  end.

Definition sub_leading_fence (s : pystr) : pystr :=
  if startswith s (py "```") then drop_newline (drop_letters (skipn 3 s))
  else s.

(** [re.sub(r'\n?```$', '', s)]: [$] matches at the end of the text and
    just before a newline that ends it, so there is at most one match; the
    leftmost one includes the optional newline.  Written on the reversed
    text [r]: the first two cases are a fence at the very end, the last two
    a fence before a final newline, which stays. *)
Definition sub_trailing_fence (s : pystr) : pystr :=
  let r := rev s in
  if startswith r [96; 96; 96; 10]%N then rev (skipn 4 r)
  else if startswith r [96; 96; 96]%N then rev (skipn 3 r)
  else if startswith r [10; 96; 96; 96; 10]%N then rev (10%N :: skipn 5 r)
  else if startswith r [10; 96; 96; 96]%N then rev (10%N :: skipn 4 r)
  else s.

(** The two [re.sub] lines of [_clean_ai_response]. *)
Definition strip_fences (ai_response : pystr) : pystr :=
  let cleaned := sub_leading_fence (strip ai_response) in
  sub_trailing_fence (strip cleaned).

(** The dictionary [_clean_ai_response] returns. *)
Record intent := {
  service : pyval;
  target : pyval;
  variables : pyval;
  response_text : pyval;
  data : pyval
}.

(** [obj.get(k, default)] on an arbitrary value: only a dictionary has the
    method. *)
Definition py_get (obj : pyval) (k : pystr) (default : pyval) : outcome pyval :=
  match obj with
  | PDict d => Return (dict_get_default d k default)
  | _ => Raise AttributeError
  end.

Section Parser.

(** [json.loads] of the standard library. *)
Variable json_loads : pystr -> outcome pyval.

Definition _clean_ai_response (ai_response : pystr) : outcome intent :=
  let cleaned := strip_fences ai_response in
  match json_loads cleaned with
  | Return obj =>
      match py_get obj (py "service") PNone with
      | Raise e => Raise e
      | Return service =>
      match py_get obj (py "target") (PDict []) with
      | Raise e => Raise e
      | Return target =>
      match py_get obj (py "variables") (PDict []) with
      | Raise e => Raise e
      | Return variables =>
      match py_get obj (py "response_text") (PStr []) with
      | Raise e => Raise e
      | Return response_text =>
      match py_get obj (py "data") (PDict []) with
      | Raise e => Raise e
      | Return dataopt =>
          Return {| service := service; target := target;
                    variables := variables;
                    response_text := response_text; data := dataopt |}
      end end end end end
  | Raise JSONDecodeError =>
      Return {| service := PNone; target := PDict [];
                variables := PDict [];
                response_text := PStr cleaned; data := PDict [] |}
  | Raise e => Raise e
  end.

End Parser.

(** ** The world of the dispatcher *)

(** What [requests.post] is given. *)
Record request := {
  url : pystr;
  headers : list (pystr * pystr);
  json : pyval;
  timeout : Z
}.

(** What the code reads of a [requests.Response]. *)
Record response := {
  status_code : Z;
  text : pystr
}.

(** [Response.ok] of the requests library: [raise_for_status] raises for
    the codes 400 to 599 and for no other. *)
Definition ok (r : response) : bool :=
  negb ((400 <=? status_code r)%Z && (status_code r <? 600)%Z).

(** [requests.post] returns a response or raises a [RequestException]
    (timeout, connection error, ...) with a description. *)
Inductive http_outcome :=
| Response (r : response)
| RequestException (description : pystr).

Inductive event :=
| PrefSet (name : pystr) (value : pyval)
| PrefGet (name : pystr)
| HttpPost (q : request).

Record world := {
  settings : dict;
  trace : list event
}.

Definition record_event (e : event) (w : world) : world :=
  {| settings := settings w; trace := trace w ++ [e] |}.

(** Modelled from the spec: the class [Preferences] is imported from a module
    that is not part of the sources; the specification gives it the
    interface [set(name, value) -> void] and [get(name) -> string]. *)
Definition change_setting_val (name : pystr) (value : pyval) (w : world)
  : world :=
  record_event (PrefSet name value)
    {| settings := dict_set (settings w) name value; trace := trace w |}.

Definition get_setting_val (name : pystr) (w : world) : pyval * world :=
  (dict_get (settings w) name, record_event (PrefGet name) w).

(** The attributes of [self] the dispatcher reads. *)
Record hagpt := {
  ha_url : pystr;
  base_url : pystr;
  ha_token : pystr
}.

(** [float(n)] for an [int]: rounded to nearest, ties to even; an integer
    beyond the binary64 range raises. *)
Definition float_of_int (n : Z) : outcome pyfloat :=
  match SpecFloat.binary_normalize 53 1024 n 0 false with
  | SpecFloat.S754_infinity _ => Raise OverflowError
  | f => Return f
  end.

(** The dictionary every path of the dispatcher returns. *)
Definition ha_result (s : pystr) : dict := [(py "ha_result", PStr s)].

Section Dispatcher.

(** [float(s)] for a [str]: [None] stands for [ValueError]. *)
Variable float_of_str : pystr -> option pyfloat.

(** The network: the answer to a request may depend on everything that
    happened before it. *)
Variable requests_post : list event -> request -> http_outcome.

Variable self : hagpt.

(** The builtin [float]. *)
Definition py_float (v : pyval) : outcome pyfloat :=
  match v with
  | PStr s =>
      match float_of_str s with
      | Some f => Return f
      | None => Raise ValueError
      end
  | PInt n => float_of_int n
  | PBool b => float_of_int (if b then 1 else 0)
  | PFloat f => Return f
  | PNone | PList _ | PDict _ => Raise TypeError
  end.

(** The [try: requests.post(...) except RequestException] block, which
    [_call_ha_service] and [_set_virtual_entity_base] both end with. *)
Definition post_and_report (q : request) (w : world)
  : outcome dict * world :=
  let w' := record_event (HttpPost q) w in
  match requests_post (trace w) q with
  | Response r =>
      (Return (ha_result
         (if ok r then str_of_int (status_code r) ++ py ": OK"
          else str_of_int (status_code r) ++ py ": " ++ text r)), w')
  | RequestException e =>
      (Return (ha_result (py "Request error: " ++ e)), w')
  end.

Definition _set_virtual_file_entity (virt_entity virt_setting : pyval)
    (w : world) : world :=
  if eq_str virt_entity (py "switch.debug") then
    let setting_name := py "Log Mode" in
    let setting_value :=
      if eq_str virt_setting (py "turn_on") then PStr (py "Debug")
      else PStr (py "Info") in
    snd (get_setting_val setting_name
           (change_setting_val setting_name setting_value w))
  else if eq_str virt_entity (py "input_select.preferences") then
    let setting_name := py "Default Preference" in
    let setting_value := virt_setting in
    snd (get_setting_val setting_name
           (change_setting_val setting_name setting_value w))
  else w.

Definition _set_virtual_entity_base (virt_entity virt_setting : pyval)
    (w : world) : outcome dict * world :=
  let send payload :=
    post_and_report
      {| url := base_url self ++ py "/control";
         headers := [(py "Content-Type", py "application/json")];
         json := PDict payload;
         timeout := 10 |} w in
  if eq_str virt_entity (py "media_player.base_speaker") then
    match py_float virt_setting with
    | Return vol_level =>
        send [(py "volume", PDict [(py "level", PFloat vol_level)])]
    | Raise ValueError =>
        (Return (ha_result (py "Request error: Volume_Float_Conversion")), w)
    | Raise e => (Raise e, w)
    end
  else send [].

Definition or_empty (d : option dict) : dict :=
  match d with Some d => d | None => [] end.

Definition _call_ha_service (service : pystr)
    (target data dataopt variables : option dict) (w : world)
  : outcome dict * world :=
  let target := or_empty target in
  let data := or_empty data in
  let dataopt := or_empty dataopt in
  let variables := or_empty variables in
  match split_once 46 service with
  | None => (Raise ValueError, w)
  | Some (domain, service_name) =>
      let url0 :=
        ha_url self ++ py "/api/services/" ++ domain ++ py "/"
        ++ service_name in
      let entity_id := dict_get target (py "entity_id") in
      let send url payload :=
        post_and_report
          {| url := url;
             headers := [(py "Authorization", py "Bearer " ++ ha_token self);
                         (py "Content-Type", py "application/json")];
             json := PDict payload;
             timeout := 10 |} w in
      if startswith service (py "script.") && dict_truthy variables then
        send url0 [(py "entity_id", entity_id);
                   (py "variables", PDict variables)]
      else if str_eqb service (py "input_select.select_option")
              && dict_truthy data then
        if eq_str entity_id (py "input_select.preferences") then
          let pref_sel := dict_get data (py "option") in
          (Return (ha_result (py "200: OK")),
           _set_virtual_file_entity entity_id pref_sel w)
        else
          send url0 (dict_update [(py "entity_id", entity_id)] data)
      else if startswith service (py "notify.") && dict_truthy data then
        if startswith service (py "notify.echo_") then
          send (ha_url self ++ py "/api/services/" ++ domain
                ++ py "/send_message")
               (dict_update [(py "entity_id", entity_id)] data)
        else
          send url0 (dict_update [] data)
      else
        if eq_str entity_id (py "switch.debug") then
          (Return (ha_result (py "200: OK")),
           _set_virtual_file_entity entity_id (PStr service_name) w)
        else if eq_str entity_id (py "media_player.base_speaker")
                && dict_truthy data then
          let vol_level_val := dict_get data (py "volume_level") in
          _set_virtual_entity_base entity_id vol_level_val w
        else
          send url0 (dict_update [(py "entity_id", entity_id)] data)
  end.

End Dispatcher.

(** ** A reference runtime

    [float] and [json.loads] belong to the Python runtime, not to the
    repository, and the general theorems below hold for any behaviour of
    them.  The closed examples need a concrete one: this section follows
    CPython's [float(str)] and its JSON decoder on ASCII numerals (CPython
    also accepts the decimal digits of other scripts in [float]). *)

Module Reference.

Import SpecFloat.

Definition is_digit (c : N) : bool := ((48 <=? c) && (c <=? 57))%N.

(** Reads a run of decimal digits: its value on top of [acc], its length
    and the rest of the text. *)
Fixpoint digits (s : pystr) (acc : Z) (len : Z) : Z * Z * pystr :=
  match s with
  | c :: r =>
      if is_digit c then digits r (10 * acc + (Z.of_N c - 48))%Z (len + 1)%Z
      else (acc, len, s)
  | [] => (acc, len, [])
  end.

(** The binary64 number nearest to [m * 10 ^ e] for [0 <= m], ties to
    even.  A negative exponent divides with enough extra bits and a sticky
    bit, so that the one rounding of [binary_normalize] is the correct
    one. *)
Definition decimal_to_float (neg : bool) (m e : Z) : pyfloat :=
  let sgn x := if neg then Z.opp x else x in
  if (m =? 0)%Z then S754_zero neg
  else if (0 <=? e)%Z then binary_normalize 53 1024 (sgn (m * 10 ^ e)%Z) 0 neg
  else
    let d := (10 ^ (- e))%Z in
    let s := Z.max 0 (64 + Z.log2 d - Z.log2 m)%Z in
    let n := (m * 2 ^ s)%Z in
    let q := (n / d)%Z in
    let sticky := if (n mod d =? 0)%Z then 0%Z else 1%Z in
    binary_normalize 53 1024 (sgn (2 * q + sticky)%Z) (- (s + 1))%Z neg.

Definition lower (c : N) : N :=
  if ((65 <=? c) && (c <=? 90))%N then (c + 32)%N else c.

(** Underscores may only stand between two digits; they are removed. *)
Fixpoint remove_underscores (prev : N) (s : pystr) : option pystr :=
  match s with
  | [] => if N.eqb prev 95 then None else Some []
  | c :: r =>
      if N.eqb c 95 then
        if is_digit prev then remove_underscores c r else None
      else if N.eqb prev 95 && negb (is_digit c) then None
      else match remove_underscores c r with
           | Some t => Some (c :: t)
           | None => None
           end
  end.

Definition split_sign (s : pystr) : bool * pystr :=
  match s with
  | 45%N :: r => (true, r)
  | 43%N :: r => (false, r)
  | _ => (false, s)
  end.

(** The exponent part, when it is complete; otherwise nothing is read. *)
Definition exponent (s : pystr) : Z * pystr :=
  match s with
  | c :: r =>
      if N.eqb (lower c) 101 then
        let '(neg, r') := split_sign r in
        let '(v, len, rest) := digits r' 0 0 in
        if (len =? 0)%Z then (0%Z, s)
        else ((if neg then - v else v)%Z, rest)
      else (0%Z, s)
  | [] => (0%Z, [])
  end.

Definition float_of_str (s : pystr) : option pyfloat :=
  match remove_underscores 0 (strip s) with
  | None => None
  | Some t =>
      let '(neg, body) := split_sign t in
      let low := map lower body in
      if str_eqb low (py "inf") || str_eqb low (py "infinity") then
        Some (S754_infinity neg)
      else if str_eqb low (py "nan") then Some S754_nan
      else
        let '(i, ilen, r1) := digits body 0 0 in
        let '(m, flen, r2) :=
          match r1 with
          | 46%N :: r => digits r i 0
          | _ => (i, 0%Z, r1)
          end in
        if (ilen + flen =? 0)%Z then None
        else
          let '(e, r3) := exponent r2 in
          match r3 with
          | [] => Some (decimal_to_float neg m (e - flen))
          | _ :: _ => None
          end
  end.

(** *** JSON *)

Definition is_json_ws (c : N) : bool :=
  ((c =? 32) || (c =? 9) || (c =? 10) || (c =? 13))%N.

Fixpoint skip_ws (s : pystr) : pystr :=
  match s with
  | c :: r => if is_json_ws c then skip_ws r else s
  | [] => []
  end.

Definition hex_val (c : N) : option N :=
  if is_digit c then Some (c - 48)%N
  else if ((97 <=? c) && (c <=? 102))%N then Some (c - 87)%N
  else if ((65 <=? c) && (c <=? 70))%N then Some (c - 55)%N
  else None.

Definition hex4 (s : pystr) : option (N * pystr) :=
  match s with
  | a :: b :: c :: d :: r =>
      match hex_val a, hex_val b, hex_val c, hex_val d with
      | Some a, Some b, Some c, Some d =>
          Some (((a * 16 + b) * 16 + c) * 16 + d, r)%N
      | _, _, _, _ => None
      end
  | _ => None
  end.

Definition simple_escape (c : N) : option N :=
  match c with
  | 34 => Some 34 | 92 => Some 92 | 47 => Some 47
  | 98 => Some 8 | 102 => Some 12 | 110 => Some 10
  | 114 => Some 13 | 116 => Some 9
  | _ => None
  end%N.

(** The text of a string after its opening quote (strict mode). *)
Fixpoint scanstring (fuel : nat) (s acc : pystr) : option (pystr * pystr) :=
  match fuel with
  | O => None
  | S fuel =>
      match s with
      | [] => None
      | 34%N :: r => Some (rev acc, r)
      | 92%N :: 117%N :: r =>
          match hex4 r with
          | None => None
          | Some (c, r1) =>
              let alone := scanstring fuel r1 (c :: acc) in
              if ((55296 <=? c) && (c <=? 56319))%N then
                match r1 with
                | 92%N :: 117%N :: r2 =>
                    match hex4 r2 with
                    | None => None
                    | Some (c2, r3) =>
                        if ((56320 <=? c2) && (c2 <=? 57343))%N then
                          scanstring fuel r3
                            ((65536 + (c - 55296) * 1024 + (c2 - 56320))%N
                             :: acc)
                        else alone
                    end
                | _ => alone
                end
              else alone
          end
      | 92%N :: c :: r =>
          match simple_escape c with
          | Some c' => scanstring fuel r (c' :: acc)
          | None => None
          end
      | c :: r => if (c <? 32)%N then None else scanstring fuel r (c :: acc)
      end
  end.

(** A number: the value and the rest, [None] when no number starts here. *)
Definition scan_number (parse_float : pystr -> option pyfloat) (s : pystr)
  : option (outcome pyval * pystr) :=
  let '(neg, r0) := match s with 45%N :: r => (true, r) | _ => (false, s) end in
  let int_part :=
    match r0 with
    | 48%N :: r => Some (0%Z, r)
    | c :: _ =>
        if is_digit c then let '(v, _, r) := digits r0 0 0 in Some (v, r)
        else None
    | [] => None
    end in
  match int_part with
  | None => None
  | Some (v, r1) =>
      let r2 :=
        match r1 with
        | 46%N :: c :: _ =>
            if is_digit c then snd (digits (tl r1) 0 0) else r1
        | _ => r1
        end in
      let r3 := snd (exponent r2) in
      if (List.length r3 =? List.length r1)%nat then
        Some (Return (PInt (if neg then - v else v)%Z), r1)
      else
        let lexeme := firstn (List.length s - List.length r3) s in
        Some (match parse_float lexeme with
              | Some f => Return (PFloat f)
              | None => Raise ValueError
              end, r3)
  end.

Section Decoder.

Variable parse_float : pystr -> option pyfloat.

Definition scan_atom (s : pystr) : outcome (pyval * pystr) :=
  if startswith s (py "null") then Return (PNone, skipn 4 s)
  else if startswith s (py "true") then Return (PBool true, skipn 4 s)
  else if startswith s (py "false") then Return (PBool false, skipn 5 s)
  else if startswith s (py "NaN") then Return (PFloat S754_nan, skipn 3 s)
  else if startswith s (py "Infinity") then
    Return (PFloat (S754_infinity false), skipn 8 s)
  else if startswith s (py "-Infinity") then
    Return (PFloat (S754_infinity true), skipn 9 s)
  else
    match scan_number parse_float s with
    | Some (Return v, r) => Return (v, r)
    | Some (Raise e, _) => Raise e
    | None => Raise JSONDecodeError
    end.

Fixpoint scan_once (fuel : nat) (s : pystr) : outcome (pyval * pystr) :=
  match fuel with
  | O => Raise JSONDecodeError
  | S fuel =>
      match s with
      | 34%N :: r =>
          match scanstring (List.length r) r [] with
          | Some (t, r') => Return (PStr t, r')
          | None => Raise JSONDecodeError
          end
      | 123%N :: r =>
          match skip_ws r with
          | 125%N :: r' => Return (PDict [], r')
          | r' => scan_members fuel r' []
          end
      | 91%N :: r =>
          match skip_ws r with
          | 93%N :: r' => Return (PList [], r')
          | r' => scan_elements fuel r' []
          end
      | _ => scan_atom s
      end
  end
with scan_members (fuel : nat) (s : pystr) (acc : dict)
  : outcome (pyval * pystr) :=
  match fuel with
  | O => Raise JSONDecodeError
  | S fuel =>
      match s with
      | 34%N :: r =>
          match scanstring (List.length r) r [] with
          | None => Raise JSONDecodeError
          | Some (key, r1) =>
              match skip_ws r1 with
              | 58%N :: r2 =>
                  match scan_once fuel (skip_ws r2) with
                  | Raise e => Raise e
                  | Return (v, r3) =>
                      let acc' := dict_set acc key v in
                      match skip_ws r3 with
                      | 125%N :: r4 => Return (PDict acc', r4)
                      | 44%N :: r4 => scan_members fuel (skip_ws r4) acc'
                      | _ => Raise JSONDecodeError
                      end
                  end
              | _ => Raise JSONDecodeError
              end
          end
      | _ => Raise JSONDecodeError
      end
  end
with scan_elements (fuel : nat) (s : pystr) (acc : list pyval)
  : outcome (pyval * pystr) :=
  match fuel with
  | O => Raise JSONDecodeError
  | S fuel =>
      match scan_once fuel s with
      | Raise e => Raise e
      | Return (v, r1) =>
          match skip_ws r1 with
          | 93%N :: r2 => Return (PList (rev (v :: acc)), r2)
          | 44%N :: r2 => scan_elements fuel (skip_ws r2) (v :: acc)
          | _ => Raise JSONDecodeError
          end
      end
  end.

(** [json.loads(s)]: one value between optional white space.  Every
    recursive call reads at least one character, so the length of the
    text is fuel enough. *)
Definition json_loads (s : pystr) : outcome pyval :=
  match scan_once (S (List.length s)) (skip_ws s) with
  | Raise e => Raise e
  | Return (v, r) =>
      match skip_ws r with
      | [] => Return v
      | _ :: _ => Raise JSONDecodeError
      end
  end.

End Decoder.

(** The decoder with its default [parse_float=float]. *)
Definition loads : pystr -> outcome pyval := json_loads float_of_str.

End Reference.

(** ** Routing conditions and effect counters *)

(** The conditions of the [if]/[elif] chain of [_call_ha_service]. *)
Definition script_branch (service : pystr) (variables : option dict) : bool :=
  startswith service (py "script.") && dict_truthy (or_empty variables).

Definition select_branch (service : pystr) (data : option dict) : bool :=
  str_eqb service (py "input_select.select_option")
  && dict_truthy (or_empty data).

Definition notify_branch (service : pystr) (data : option dict) : bool :=
  startswith service (py "notify.") && dict_truthy (or_empty data).

(** The final [else] is reached when none of the three holds. *)
Definition default_branch (service : pystr) (data variables : option dict)
  : bool :=
  negb (script_branch service variables)
  && negb (select_branch service data)
  && negb (notify_branch service data).

Definition is_post (e : event) : bool :=
  match e with HttpPost _ => true | _ => false end.

Definition is_set (e : event) : bool :=
  match e with PrefSet _ _ => true | _ => false end.

Definition network_calls (t : list event) : nat :=
  List.length (filter is_post t).

Definition settings_mutations (t : list event) : nat :=
  List.length (filter is_set t).

(** Code-fence markup around a text: an opening line of three backquotes and
    a language tag, a closing line of three backquotes. *)
Definition fence : pystr := [96; 96; 96]%N.

Definition wrap (tag raw : pystr) : pystr :=
  fence ++ tag ++ 10%N :: raw ++ 10%N :: fence.

(** A text that itself begins or ends with a fence. *)
Definition fenced (s : pystr) : bool :=
  startswith s fence || startswith (rev s) fence.

(** The requests the dispatcher builds: for the primary control plane, with
    the bearer token, and for the secondary device API, without. *)
Definition service_url (self : hagpt) (domain action : pystr) : pystr :=
  ha_url self ++ py "/api/services/" ++ domain ++ py "/" ++ action.

Definition primary_request (self : hagpt) (url : pystr) (payload : dict)
  : request :=
  {| url := url;
     headers := [(py "Authorization", py "Bearer " ++ ha_token self);
                 (py "Content-Type", py "application/json")];
     json := PDict payload;
     timeout := 10 |}.

Definition secondary_request (self : hagpt) (payload : dict) : request :=
  {| url := base_url self ++ py "/control";
     headers := [(py "Content-Type", py "application/json")];
     json := PDict payload;
     timeout := 10 |}.

(** The world after a virtual setting was written and read back. *)
Definition setting_written (name : pystr) (value : pyval) (w : world)
  : world :=
  {| settings := dict_set (settings w) name value;
     trace := trace w ++ [PrefSet name value; PrefGet name] |}.

(** ** Sample objects for the closed examples *)

Module Sample.

Definition hub : hagpt :=
  {| ha_url := py "http://ha.local:8123";
     base_url := py "http://max.local:5000";
     ha_token := py "TOKEN" |}.

Definition fresh : world := {| settings := []; trace := [] |}.

(** A network that answers every request with the given status and body. *)
Definition answers (code : Z) (body : string)
  : list event -> request -> http_outcome :=
  fun _ _ => Response {| status_code := code; text := py body |}.

(** A network on which every request times out. *)
Definition times_out : list event -> request -> http_outcome :=
  fun _ _ => RequestException (py "timed out").

Definition entity (id : string) : option dict :=
  Some [(py "entity_id", PStr (py id))].

End Sample.

(** ** Further definitions for the rest of the code *)

(** [k in d] *)
Definition dict_has_key (d : dict) (k : pystr) : bool :=
  existsb (fun kv => str_eqb (fst kv) k) d.

(** The payload of a volume request. *)
Definition volume_payload (level : pyfloat) : dict :=
  [(py "volume", PDict [(py "level", PFloat level)])].

(** *** [process_ai_response] *)

(** Truth value of a Python value, as [if service:] takes it. *)
Definition truthy (v : pyval) : bool :=
  match v with
  | PNone => false
  | PBool b => b
  | PInt n => negb (n =? 0)%Z
  | PFloat (SpecFloat.S754_zero _) => false
  | PFloat _ => true
  | PStr s => match s with [] => false | _ :: _ => true end
  | PList l => match l with [] => false | _ :: _ => true end
  | PDict d => dict_truthy d
  end.

(** The argument types of the dispatcher: a mapping, or [None]. *)
Definition as_mapping (v : pyval) : option (option dict) :=
  match v with
  | PNone => Some None
  | PDict d => Some (Some d)
  | _ => None
  end.

(** [s.split(sep)[0]]: the text before the first separator, all of it when
    there is none. *)
Fixpoint before_sep (sep : N) (s : pystr) : pystr :=
  match s with
  | [] => []
  | c :: r => if N.eqb c sep then [] else c :: before_sep sep r
  end.

(** The dictionary [process_ai_response] returns. *)
Record processed := {
  p_service : pyval;
  p_target : pyval;
  p_data : pyval;
  p_dataopt : pyval;
  p_variables : pyval;
  p_response_text : pyval;
  p_ha_result : pyval
}.

Section Orchestrator.

Variable json_loads : pystr -> outcome pyval.
Variable float_of_str : pystr -> option pyfloat.
Variable requests_post : list event -> request -> http_outcome.

(** [int(s)] for a [str]: [None] stands for [ValueError]. *)
Variable int_of_str : pystr -> option Z.

Variable self : hagpt.

(** [int(ha_result.split(":")[0])], 0 on [ValueError]. *)
Definition status_of (ha_result : pystr) : Z :=
  match int_of_str (before_sep 58 ha_result) with
  | Some n => n
  | None => 0%Z
  end.

(** The dispatcher is embedded on strings and mappings, so the result is
    [None] for a reply whose service is a string while its target, data or
    variables are neither [None] nor a mapping; everything else is as the
    code runs.  The dictionary of [_clean_ai_response] has no ["dataopt"]
    key, so [dataopt] is always the default [{}].  A truthy service that is
    no string fails on [service.split]. *)
Definition process_ai_response (ai_response : pystr) (w : world)
  : option (outcome processed * world) :=
  match _clean_ai_response json_loads ai_response with
  | Raise e => Some (Raise e, w)
  | Return clean_response =>
      let service := service clean_response in
      let target := target clean_response in
      let data := data clean_response in
      let dataopt := PDict [] in
      let variables := variables clean_response in
      let response_text := response_text clean_response in
      let result ha_result :=
        {| p_service := service; p_target := target; p_data := data;
           p_dataopt := dataopt; p_variables := variables;
           p_response_text := response_text; p_ha_result := ha_result |} in
      if truthy service then
        match service with
        | PStr name =>
            match as_mapping target, as_mapping data, as_mapping variables with
            | Some target', Some data', Some variables' =>
                match _call_ha_service float_of_str requests_post self
                        name target' data' (Some []) variables' w with
                | (Raise e, w') => Some (Raise e, w')
                | (Return ha_ret, w') =>
                    match dict_get ha_ret (py "ha_result") with
                    | PStr ha_result =>
                        let status_code := status_of ha_result in
                        if (200 <=? status_code)%Z && (status_code <? 300)%Z
                        then
                          (* entity_id = target.get("entity_id") *)
                          match target with
                          | PDict _ => Some (Return (result (PStr ha_result)), w')
                          | _ => Some (Raise AttributeError, w')
                          end
                        else Some (Return (result (PStr ha_result)), w')
                    | _ => Some (Raise AttributeError, w')
                    end
                end
            | _, _, _ => None
            end
        | _ => Some (Raise AttributeError, w)
        end
      else Some (Return (result PNone), w)
  end.

End Orchestrator.

(** *** [get_valid_preference_names] *)

(** Exceptions of the functions around the dispatcher. *)
Inductive error :=
| Builtin (e : exn)
| UnboundLocalError
| FileNotFoundError
| RuntimeError
| RequestError (description : pystr).

Inductive result (A : Type) :=
| Done (a : A)
| Failed (e : error).
Arguments Done {A} a.
Arguments Failed {A} e.

(** [sep.join(l)] *)
Fixpoint join (sep : pystr) (l : list pystr) : pystr :=
  match l with
  | [] => []
  | x :: r => match r with [] => x | _ :: _ => x ++ sep ++ join sep r end
  end.

(** The loop over the preference names; [pref_names] is [None] as long as
    the variable is not bound. *)
Fixpoint pref_names_loop (all_preferences : list pystr) (first_loop : bool)
    (pref_names : option pystr) : result (option pystr) :=
  match all_preferences with
  | [] => Done pref_names
  | preference_name :: rest =>
      if negb first_loop then
        match pref_names with
        | Some p =>
            pref_names_loop rest first_loop
              (Some ((p ++ py ", ") ++ preference_name))
        | None => Failed UnboundLocalError
        end
      else
        pref_names_loop rest false
          (Some (py "Valid Preference Names (" ++ preference_name))
  end.

Definition get_valid_preference_names (all_preferences : list pystr)
  : result pystr :=
  match pref_names_loop all_preferences true None with
  | Done (Some p) => Done (p ++ py ")")
  | Done None => Failed UnboundLocalError
  | Failed e => Failed e
  end.

(** *** [set_openAI_model] and [get_ha_entity_info] *)

(** The calls made on [self.payload.connection]. *)
Inductive connection_call :=
| set_verbosity (v : pystr)
| set_model (m : pystr).

Definition set_openAI_model (model : pystr) : list connection_call :=
  set_verbosity (py "low") ::
  (if str_eqb model (py "gpt-5-mini") then [set_model (py "gpt-5-mini")]
   else if str_eqb model (py "gpt-5-nano") then [set_model (py "gpt-5-nano")]
   else [set_model (py "gpt-4o-mini"); set_verbosity (py "medium")]).

(** The model and the verbosity a sequence of calls leaves, given the ones
    before it. *)
Fixpoint final_model (calls : list connection_call) (m : pystr) : pystr :=
  match calls with
  | [] => m
  | set_model m' :: r => final_model r m'
  | set_verbosity _ :: r => final_model r m
  end.

Fixpoint final_verbosity (calls : list connection_call) (v : pystr) : pystr :=
  match calls with
  | [] => v
  | set_verbosity v' :: r => final_verbosity r v'
  | set_model _ :: r => final_verbosity r v
  end.

(** [text.replace("\\n", "\n")]: a backslash followed by [n] becomes a
    newline. *)
Fixpoint replace_escaped_newlines (s : pystr) : pystr :=
  match s with
  | [] => []
  | c :: r =>
      if N.eqb c 92 then
        match r with
        | d :: r' =>
            if N.eqb d 110 then 10%N :: replace_escaped_newlines r'
            else c :: replace_escaped_newlines r
        | [] => [c]
        end
      else c :: replace_escaped_newlines r
  end.

(** [text.split()]: the maximal runs of characters that are no white space;
    [cur] is the run being read, reversed. *)
Fixpoint split_words (s : pystr) (cur : pystr) : list pystr :=
  match s with
  | [] => match cur with [] => [] | _ :: _ => [rev cur] end
  | c :: r =>
      if isspace c then
        match cur with
        | [] => split_words r []
        | _ :: _ => rev cur :: split_words r []
        end
      else split_words r (c :: cur)
  end.

(** [" ".join(text.split())] *)
Definition collapse_whitespace (text : pystr) : pystr :=
  join [32%N] (split_words text []).

Fixpoint take_while (f : N -> bool) (s : pystr) : pystr :=
  match s with
  | c :: r => if f c then c :: take_while f r else []
  | [] => []
  end.

Section EntityInfo.

(** [\w] of the [re] module on one code point. *)
Variable is_word : N -> bool.

(** Reading the lines of the entity file, resolved against the directory of
    the script: [None] stands for [FileNotFoundError]. *)
Variable read_lines : pystr -> option (list pystr).

(** [json.dumps] *)
Variable json_dumps : pyval -> pystr.

(** [requests.post(url, headers=..., data=...)]: no timeout is given. *)
Variable post_template :
  pystr -> list (pystr * pystr) -> pystr -> http_outcome.

Variable self : hagpt.

(** The tail [.*?state:(\w+)] of the pattern: the first ["state:"] that a
    word character follows, not beyond a newline, and the word after it. *)
Fixpoint find_state (s : pystr) : option pystr :=
  if startswith s (py "state:")
     && match skipn 6 s with c :: _ => is_word c | [] => false end
  then Some (take_while is_word (skipn 6 s))
  else match s with
       | [] => None
       | c :: r => if N.eqb c 10 then None else find_state r
       end.

(** [re.search(r'input_select\.intelligence_level.*?state:(\w+)', text)]:
    group 1 of the leftmost match. *)
Fixpoint search_intelligence_level (text : pystr) : option pystr :=
  match
    (if startswith text (py "input_select.intelligence_level")
     then find_state (skipn 31 text) else None)
  with
  | Some level => Some level
  | None =>
      match text with
      | [] => None
      | _ :: r => search_intelligence_level r
      end
  end.

Definition quote : pystr := [34%N].

(** The Jinja2 template for the entities. *)
Definition entity_template (entities : list pystr) : pystr :=
  let entity_list := join (py ",") (map (fun e => quote ++ e ++ quote) entities) in
  py "{% for e in [" ++ entity_list
  ++ py "] %}{{ e }} ({{ state_attr(e, " ++ quote ++ py "friendly_name" ++ quote
  ++ py ") or "
  ++ py "e.split('.')[1]|replace('_',' ')|title }}) state:{{ states(e) }}\n{% endfor %}".

(** What the function did besides returning. *)
Inductive info_event :=
| TemplatePost (url : pystr) (headers : list (pystr * pystr)) (body : pystr)
| Connection (c : connection_call).

Definition get_ha_entity_info (input_file : pystr)
  : result pystr * list info_event :=
  match input_file with
  | [] => (Failed (Builtin ValueError), [])
  | _ :: _ =>
      match read_lines input_file with
      | None => (Failed FileNotFoundError, [])
      | Some lines =>
          let entities :=
            filter (fun l => match l with [] => false | _ :: _ => true end)
                   (map strip lines) in
          let template := entity_template entities in
          let json_payload :=
            json_dumps (PDict [(py "template", PStr template)]) in
          let headers :=
            [(py "Authorization", py "Bearer " ++ ha_token self);
             (py "Content-Type", py "application/json")] in
          let url := ha_url self ++ py "/api/template" in
          let sent := [TemplatePost url headers json_payload] in
          match post_template url headers json_payload with
          | RequestException e => (Failed (RequestError e), sent)
          | Response response =>
              if negb (status_code response =? 200)%Z then
                (Failed RuntimeError, sent)
              else
                let text := replace_escaped_newlines (text response) in
                let text := collapse_whitespace text in
                let calls :=
                  match search_intelligence_level text with
                  | Some intelligence_level =>
                      if str_eqb intelligence_level (py "High") then
                        set_openAI_model (py "gpt-5-mini")
                      else if str_eqb intelligence_level (py "Medium") then
                        set_openAI_model (py "gpt-5-nano")
                      else set_openAI_model (py "gpt-4o-mini")
                  | None => []
                  end in
                (Done text, sent ++ map Connection calls)
          end
      end
  end.

End EntityInfo.

(** *** Start-up *)

(** [_load_openai_key] and [_load_ha_token]: the value of the environment
    variable, the empty string when it is not set. *)
Definition _load_ha_token (ha_token : option pystr) : pystr :=
  match ha_token with
  | None => []
  | Some t => t
  end.

Definition _load_openai_key (api_key : option pystr) : pystr :=
  match api_key with
  | None => []
  | Some k => k
  end.

Inductive log_level := DEBUG | INFO.

Section Logging.

(** [str.lower] *)
Variable str_lower : pystr -> pystr.

(** The level [_configure_logging] passes to [logging.basicConfig]; a
    setting that is no string has no method [lower]. *)
Definition _configure_logging (log_mode : pyval) : outcome log_level :=
  match log_mode with
  | PStr s =>
      if str_eqb (str_lower s) (py "debug") then Return DEBUG
      else Return INFO
  | _ => Raise AttributeError
  end.

End Logging.

(** *** More of the reference runtime *)

Module AsciiRuntime.

(** [int(s)] on ASCII numerals: white space around, a sign, digits with
    single underscores between them. *)
Definition int_of_str (s : pystr) : option Z :=
  match Reference.remove_underscores 0 (strip s) with
  | None => None
  | Some t =>
      let '(neg, body) := Reference.split_sign t in
      let '(v, len, rest) := Reference.digits body 0 0 in
      if (len =? 0)%Z then None
      else match rest with
           | [] => Some (if neg then - v else v)%Z
           | _ :: _ => None
           end
  end.

(** [str.lower] on ASCII text. *)
Definition str_lower (s : pystr) : pystr := map Reference.lower s.

(** [\w] on ASCII text. *)
Definition is_word (c : N) : bool :=
  is_ascii_letter c || Reference.is_digit c || N.eqb c 95.

Definition hex_digit (n : N) : N :=
  if (n <? 10)%N then (48 + n)%N else (87 + n)%N.

Definition escape_u (c : N) : pystr :=
  [92; 117; hex_digit (c / 4096); hex_digit ((c / 256) mod 16);
   hex_digit ((c / 16) mod 16); hex_digit (c mod 16)]%N.

(** One character inside a JSON string, as [json.dumps] writes it. *)
Definition escape_char (c : N) : pystr :=
  if N.eqb c 34 then [92; 34]%N
  else if N.eqb c 92 then [92; 92]%N
  else if N.eqb c 10 then [92; 110]%N
  else if N.eqb c 13 then [92; 114]%N
  else if N.eqb c 9 then [92; 116]%N
  else if N.eqb c 8 then [92; 98]%N
  else if N.eqb c 12 then [92; 102]%N
  else if ((32 <=? c) && (c <=? 126))%N then [c]
  else if (c <? 65536)%N then escape_u c
  else escape_u (55296 + (c - 65536) / 1024)
       ++ escape_u (56320 + (c - 65536) mod 1024).

Definition dumps_str (s : pystr) : pystr :=
  [34%N] ++ flat_map escape_char s ++ [34%N].

(** [json.dumps] of a string or of a dictionary of strings; other values
    are not needed here and give [null]. *)
Definition json_dumps (v : pyval) : pystr :=
  match v with
  | PStr s => dumps_str s
  | PDict d =>
      py "{"
      ++ join (py ", ")
           (map (fun kv =>
                   dumps_str (fst kv) ++ py ": "
                   ++ match snd kv with
                      | PStr s => dumps_str s
                      | _ => py "null"
                      end) d)
      ++ py "}"
  | _ => py "null"
  end.

End AsciiRuntime.

(** The calls on the connection among the events of
    [get_ha_entity_info], and the requests among them. *)
Definition connection_calls (evs : list info_event) : list connection_call :=
  flat_map (fun e => match e with Connection c => [c] | _ => [] end) evs.

Definition template_posts (evs : list info_event) : nat :=
  List.length
    (filter (fun e => match e with TemplatePost _ _ _ => true | _ => false end)
       evs).

(** The model [get_ha_entity_info] selects for an intelligence level. *)
Definition model_of_level (level : pystr) : pystr :=
  if str_eqb level (py "High") then py "gpt-5-mini"
  else if str_eqb level (py "Medium") then py "gpt-5-nano"
  else py "gpt-4o-mini".

(** *** More sample objects *)

Module SampleInfo.

(** JSON text written with single quotes in place of double quotes. *)
Definition js (s : string) : pystr :=
  map (fun c => if N.eqb c 39 then 34%N else c) (py s).

(** An entity file with a blank line and padded names. *)
Definition entity_file (name : pystr) : option (list pystr) :=
  if str_eqb name (py "entities.txt") then
    Some [py "switch.fan" ++ [10%N]; [10%N];
          py "  input_select.intelligence_level " ++ [10%N]]
  else None.

(** A control plane that renders every template as the given body. *)
Definition renders (code : Z) (body : string)
  : pystr -> list (pystr * pystr) -> pystr -> http_outcome :=
  fun _ _ _ => Response {| status_code := code; text := py body |}.

Definition unreachable
  : pystr -> list (pystr * pystr) -> pystr -> http_outcome :=
  fun _ _ _ => RequestException (py "connection refused").

Definition rendered : string :=
  "switch.fan (Fan) state:on\ninput_select.intelligence_level (Intelligence Level) state:High\n".

End SampleInfo.

(** * Properties *)

(** ** Strings *)

Lemma str_eqb_eq (a b : pystr) : str_eqb a b = true <-> a = b.
Proof.
  revert b; induction a as [|x a IH]; intros [|y b]; simpl;
    try (split; [discriminate | discriminate]); [tauto|].
  rewrite andb_true_iff, N.eqb_eq, IH.
  split; [intros [-> ->]; reflexivity | intros H; inversion H; auto].
Qed.

Lemma str_eqb_refl (a : pystr) : str_eqb a a = true.
Proof. apply str_eqb_eq; reflexivity. Qed.

Lemma eq_str_eq (v : pyval) (s : pystr) : eq_str v s = true <-> v = PStr s.
Proof.
  destruct v; simpl; try (split; [discriminate | discriminate]).
  rewrite str_eqb_eq. split; [intros ->; reflexivity | intros H; inversion H; auto].
Qed.

Lemma startswith_app (s p : pystr) :
  startswith s p = true <-> exists r, s = p ++ r.
Proof.
  revert s; induction p as [|y p IH]; intros s; simpl.
  - split; [intros _; exists s; reflexivity | reflexivity].
  - destruct s as [|x s].
    + split; [discriminate | intros [r H]; discriminate].
    + rewrite andb_true_iff, N.eqb_eq, IH. split.
      * intros [-> [r ->]]. exists r; reflexivity.
      * intros [r H]. inversion H; subst. split; [reflexivity | exists r; reflexivity].
Qed.

Lemma split_once_none (sep : N) (s : pystr) :
  split_once sep s = None <-> ~ In sep s.
Proof.
  induction s as [|c s IH]; simpl.
  - tauto.
  - destruct (N.eqb_spec c sep) as [->|Hne].
    + split; [discriminate | intros H; exfalso; apply H; left; reflexivity].
    + destruct (split_once sep s) as [[a b]|].
      * split; [discriminate|]. intros H. exfalso.
        assert (Hs : ~ In sep s) by (intros Hin; apply H; right; exact Hin).
        apply IH in Hs. discriminate.
      * split; [|reflexivity]. intros _ [Hc|Hin]; [contradiction|].
        revert Hin. apply IH. reflexivity.
Qed.

Lemma split_once_app (sep : N) (a b : pystr) :
  ~ In sep a -> split_once sep (a ++ sep :: b) = Some (a, b).
Proof.
  induction a as [|c a IH]; simpl; intros H.
  - rewrite N.eqb_refl. reflexivity.
  - destruct (N.eqb_spec c sep) as [->|Hne].
    + exfalso; apply H; left; reflexivity.
    + rewrite IH; [reflexivity|]. intros Hin; apply H; right; exact Hin.
Qed.

Lemma split_once_some (sep : N) (s a b : pystr) :
  split_once sep s = Some (a, b) -> s = a ++ sep :: b /\ ~ In sep a.
Proof.
  revert a; induction s as [|c s IH]; simpl; intros a; [discriminate|].
  destruct (N.eqb_spec c sep) as [->|Hne].
  - intros H; inversion H; subst. simpl; tauto.
  - destruct (split_once sep s) as [[a' b']|]; [|discriminate].
    intros H; inversion H; subst. destruct (IH a' eq_refl) as [-> Hn].
    split; [reflexivity|]. intros [Hc|Hin]; [congruence | tauto].
Qed.

(** *** Stripping *)

Lemma lstrip_head (c : N) (s : pystr) :
  isspace c = false -> lstrip (c :: s) = c :: s.
Proof. intros H; simpl; rewrite H; reflexivity. Qed.

Lemma lstrip_length (s : pystr) : (List.length (lstrip s) <= List.length s)%nat.
Proof.
  induction s as [|c s IH]; simpl; [lia|].
  destruct (isspace c); simpl; lia.
Qed.

Lemma lstrip_fixed (s : pystr) :
  lstrip s = s -> s = [] \/ exists c r, s = c :: r /\ isspace c = false.
Proof.
  destruct s as [|c r]; [left; reflexivity|]. simpl.
  destruct (isspace c) eqn:E.
  - intros H. pose proof (lstrip_length r) as L. rewrite H in L. simpl in L. lia.
  - intros _. right. exists c, r. tauto.
Qed.

Lemma lstrip_idem (s : pystr) : lstrip (lstrip s) = lstrip s.
Proof.
  induction s as [|c s IH]; simpl; [reflexivity|].
  destruct (isspace c) eqn:E; [exact IH|]. simpl. rewrite E. reflexivity.
Qed.

Lemma lstrip_app (s t : pystr) :
  lstrip (s ++ t) =
  match lstrip s with [] => lstrip t | _ :: _ => lstrip s ++ t end.
Proof.
  induction s as [|c s IH]; simpl; [reflexivity|].
  destruct (isspace c); [exact IH | reflexivity].
Qed.

Lemma rstrip_idem (s : pystr) : rstrip (rstrip s) = rstrip s.
Proof. unfold rstrip. rewrite rev_involutive, lstrip_idem. reflexivity. Qed.

Lemma rstrip_fixed_rev (s : pystr) : rstrip s = s <-> lstrip (rev s) = rev s.
Proof.
  unfold rstrip. split; intros H.
  - rewrite <- H at 2. rewrite rev_involutive. reflexivity.
  - rewrite H. apply rev_involutive.
Qed.

(** Stripping the right end keeps a text free of leading white space so. *)
Lemma lstrip_rstrip (s : pystr) : lstrip s = s -> lstrip (rstrip s) = rstrip s.
Proof.
  intros H. destruct (lstrip_fixed s H) as [->|(c & r & -> & Hc)]; [reflexivity|].
  unfold rstrip. simpl rev. rewrite lstrip_app.
  destruct (lstrip (rev r)) as [|x l].
  - rewrite (lstrip_head c [] Hc). simpl. rewrite Hc. reflexivity.
  - rewrite rev_app_distr. simpl. rewrite Hc. reflexivity.
Qed.

Lemma rstrip_lstrip (s : pystr) : rstrip s = s -> rstrip (lstrip s) = lstrip s.
Proof.
  intros H. apply rstrip_fixed_rev in H.
  apply rstrip_fixed_rev.
  pose proof (lstrip_rstrip (rev s) H) as K.
  unfold rstrip in K. rewrite rev_involutive in K.
  rewrite K. reflexivity.
Qed.

Lemma strip_idem (s : pystr) : strip (strip s) = strip s.
Proof.
  unfold strip.
  rewrite (lstrip_rstrip (lstrip s) (lstrip_idem s)).
  apply rstrip_idem.
Qed.

Lemma lstrip_strip (s : pystr) : lstrip (strip s) = strip s.
Proof. unfold strip. apply lstrip_rstrip, lstrip_idem. Qed.

Lemma rstrip_strip (s : pystr) : rstrip (strip s) = strip s.
Proof. unfold strip. apply rstrip_idem. Qed.

(** A text that ends with a character that is no white space. *)
Lemma strip_snoc (s : pystr) (c : N) :
  isspace c = false -> rstrip (s ++ [c]) = s ++ [c].
Proof.
  intros H. unfold rstrip. rewrite rev_app_distr. simpl.
  rewrite H. simpl. rewrite rev_involutive. reflexivity.
Qed.

(** ** The reply parser *)

Lemma drop_letters_tag (tag x : pystr) :
  forallb is_ascii_letter tag = true ->
  drop_letters (tag ++ 10%N :: x) = 10%N :: x.
Proof.
  induction tag as [|c tag IH]; simpl; [reflexivity|].
  rewrite andb_true_iff. intros [-> H]. exact (IH H).
Qed.

Lemma rstrip_fence_end (s : pystr) : rstrip (s ++ fence) = s ++ fence.
Proof.
  change fence with ([96; 96]%N ++ [96%N]). rewrite app_assoc.
  apply strip_snoc. reflexivity.
Qed.

Lemma strip_wrap (tag raw : pystr) : strip (wrap tag raw) = wrap tag raw.
Proof.
  unfold strip. replace (lstrip (wrap tag raw)) with (wrap tag raw) by reflexivity.
  unfold wrap.
  replace (fence ++ tag ++ 10%N :: raw ++ 10%N :: fence)
    with ((fence ++ tag ++ 10%N :: raw ++ [10%N]) ++ fence).
  - apply rstrip_fence_end.
  - repeat (rewrite <- app_assoc; simpl). reflexivity.
Qed.

Lemma sub_trailing_fence_line (l : pystr) :
  sub_trailing_fence (l ++ 10%N :: fence) = l.
Proof.
  unfold sub_trailing_fence. rewrite rev_app_distr. simpl.
  apply rev_involutive.
Qed.

(** Cleaning a fenced text removes the opening line and the closing line,
    and the white space that led the text. *)
Lemma strip_fences_wrap (tag raw : pystr) :
  forallb is_ascii_letter tag = true ->
  strip_fences (wrap tag raw) = lstrip raw.
Proof.
  intros Htag. unfold strip_fences. rewrite strip_wrap.
  replace (sub_leading_fence (wrap tag raw)) with (raw ++ 10%N :: fence).
  2:{ unfold wrap, sub_leading_fence. simpl.
      rewrite (drop_letters_tag _ _ Htag). reflexivity. }
  unfold strip. rewrite lstrip_app.
  destruct (lstrip raw) as [|c l] eqn:E.
  - reflexivity.
  - replace ((c :: l) ++ 10%N :: fence) with (((c :: l) ++ [10%N]) ++ fence)
      by (rewrite <- app_assoc; reflexivity).
    rewrite rstrip_fence_end. rewrite <- app_assoc. simpl app.
    apply (sub_trailing_fence_line (c :: l)).
Qed.

(** A stripped text that is not fenced is left as it is. *)
Lemma strip_fences_unfenced (raw : pystr) :
  fenced (strip raw) = false -> strip_fences raw = strip raw.
Proof.
  unfold fenced. rewrite orb_false_iff. intros [Hl Ht].
  unfold strip_fences, sub_leading_fence.
  change (py "```") with fence. rewrite Hl, strip_idem.
  unfold fence in Ht.
  unfold sub_trailing_fence.
  pose proof (rstrip_strip raw) as R. apply rstrip_fixed_rev in R.
  destruct (rev (strip raw)) as [|c r] eqn:E; [reflexivity|].
  destruct (lstrip_fixed _ R) as [K|(c' & r' & K & Hc)]; [discriminate|].
  inversion K; subst c' r'.
  assert (H1 : startswith (c :: r) [96; 96; 96; 10]%N = false).
  { destruct (startswith (c :: r) [96; 96; 96; 10]%N) eqn:S; [|reflexivity].
    apply startswith_app in S. destruct S as [x S].
    assert (T : startswith (c :: r) [96; 96; 96]%N = true).
    { apply startswith_app. exists (10%N :: x). rewrite S. reflexivity. }
    congruence. }
  rewrite H1, Ht.
  assert (H2 : forall p, startswith (c :: r) (10%N :: p) = false).
  { intros p. simpl. destruct (N.eqb_spec c 10) as [->|]; [discriminate|reflexivity]. }
  rewrite !H2. reflexivity.
Qed.

(** The fallback of [_clean_ai_response]: a text [json.loads] rejects
    becomes the reply text, with no service and empty mappings. *)
Lemma clean_ai_response_fallback (json_loads : pystr -> outcome pyval)
    (ai_response : pystr) :
  json_loads (strip_fences ai_response) = Raise JSONDecodeError ->
  _clean_ai_response json_loads ai_response =
    Return {| service := PNone; target := PDict []; variables := PDict [];
              response_text := PStr (strip_fences ai_response);
              data := PDict [] |}.
Proof. intros H. unfold _clean_ai_response. rewrite H. reflexivity. Qed.

(** A reply that is a JSON object is read field by field, absent fields
    taking their defaults. *)
Lemma clean_ai_response_object (json_loads : pystr -> outcome pyval)
    (ai_response : pystr) (d : dict) :
  json_loads (strip_fences ai_response) = Return (PDict d) ->
  _clean_ai_response json_loads ai_response =
    Return {| service := dict_get_default d (py "service") PNone;
              target := dict_get_default d (py "target") (PDict []);
              variables := dict_get_default d (py "variables") (PDict []);
              response_text := dict_get_default d (py "response_text") (PStr []);
              data := dict_get_default d (py "data") (PDict []) |}.
Proof. intros H. unfold _clean_ai_response. rewrite H. reflexivity. Qed.

Example clean_ai_response_plain_text :
  _clean_ai_response Reference.loads (py "The kitchen light is on.") =
    Return {| service := PNone; target := PDict []; variables := PDict [];
              response_text := PStr (py "The kitchen light is on.");
              data := PDict [] |}.
Proof. vm_compute. reflexivity. Qed.

(** C7 (the code departs from it): the parser is to degrade gracefully on
    every input, but a reply that is valid JSON without being an object,
    such as [42], passes [json.loads] and then fails on [data.get] with an
    [AttributeError] that nothing handles. *)
Theorem clean_ai_response_non_object_raises :
  Reference.loads (strip_fences (py "42")) = Return (PInt 42)
  /\ _clean_ai_response Reference.loads (py "42") = Raise AttributeError.
Proof. split; vm_compute; reflexivity. Qed.

(** C8 as stated fails: a plain reply with a trailing blank keeps the blank
    when it is parsed inside a fence and loses it when parsed bare. *)
Lemma fence_wrap_counterexample :
  _clean_ai_response Reference.loads (wrap (py "json") (py "ok ")) =
    Return {| service := PNone; target := PDict []; variables := PDict [];
              response_text := PStr (py "ok "); data := PDict [] |}
  /\ _clean_ai_response Reference.loads (py "ok ") =
    Return {| service := PNone; target := PDict []; variables := PDict [];
              response_text := PStr (py "ok"); data := PDict [] |}
  /\ _clean_ai_response Reference.loads (wrap (py "json") (py "ok ")) <>
     _clean_ai_response Reference.loads (py "ok ").
Proof.
  split; [vm_compute; reflexivity|].
  split; [vm_compute; reflexivity|].
  vm_compute. discriminate.
Qed.

(** C8 (amended): for a raw input without trailing white space that is not
    itself fenced, and a tag of ASCII letters, parsing the fenced input
    removes exactly the opening and the closing fence line and yields the
    intent of the bare input, whatever [json.loads] does. *)
Theorem fence_wrap_same_intent (json_loads : pystr -> outcome pyval)
    (tag raw : pystr) :
  forallb is_ascii_letter tag = true ->
  rstrip raw = raw ->
  fenced (strip raw) = false ->
  strip_fences (wrap tag raw) = strip raw
  /\ _clean_ai_response json_loads (wrap tag raw) =
     _clean_ai_response json_loads raw.
Proof.
  intros Htag Hr Hf.
  assert (E : strip_fences (wrap tag raw) = strip_fences raw).
  { rewrite (strip_fences_wrap _ _ Htag), (strip_fences_unfenced _ Hf).
    unfold strip. symmetry. apply rstrip_lstrip, Hr. }
  split.
  - rewrite E. apply strip_fences_unfenced, Hf.
  - unfold _clean_ai_response. rewrite E. reflexivity.
Qed.

Lemma fence_wrap_same_intent_witness :
  forallb is_ascii_letter (py "json") = true
  /\ rstrip (py "  {}") = py "  {}"
  /\ fenced (strip (py "  {}")) = false
  /\ strip_fences (wrap (py "json") (py "  {}")) = py "{}"
  /\ _clean_ai_response Reference.loads (wrap (py "json") (py "  {}")) =
     _clean_ai_response Reference.loads (py "  {}").
Proof.
  split; [reflexivity|]. split; [reflexivity|]. split; [reflexivity|].
  apply (fence_wrap_same_intent Reference.loads (py "json") (py "  {}"));
    reflexivity.
Defined.

(** ** The dispatcher *)

Lemma record_event_twice (a b : event) (w : world) :
  record_event b (record_event a w) =
  {| settings := settings w; trace := trace w ++ [a; b] |}.
Proof. unfold record_event. simpl. rewrite <- app_assoc. reflexivity. Qed.

Section DispatchProperties.

Variable float_of_str : pystr -> option pyfloat.
Variable requests_post : list event -> request -> http_outcome.
Variable self : hagpt.

Local Abbreviation dispatch := (_call_ha_service float_of_str requests_post self).
Local Abbreviation post := (post_and_report requests_post).

Lemma set_debug_switch (virt_setting : pyval) (w : world) :
  _set_virtual_file_entity (PStr (py "switch.debug")) virt_setting w =
  setting_written (py "Log Mode")
    (if eq_str virt_setting (py "turn_on") then PStr (py "Debug")
     else PStr (py "Info")) w.
Proof.
  unfold _set_virtual_file_entity.
  replace (eq_str (PStr (py "switch.debug")) (py "switch.debug")) with true
    by reflexivity.
  cbv zeta. unfold get_setting_val, change_setting_val, snd.
  rewrite record_event_twice. reflexivity.
Qed.

Lemma set_preferences (virt_setting : pyval) (w : world) :
  _set_virtual_file_entity (PStr (py "input_select.preferences"))
    virt_setting w =
  setting_written (py "Default Preference") virt_setting w.
Proof.
  unfold _set_virtual_file_entity.
  replace (eq_str (PStr (py "input_select.preferences")) (py "switch.debug"))
    with false by reflexivity.
  replace (eq_str (PStr (py "input_select.preferences"))
             (py "input_select.preferences")) with true by reflexivity.
  cbv zeta. unfold get_setting_val, change_setting_val, snd.
  rewrite record_event_twice. reflexivity.
Qed.

(** Every path through the dispatcher ends in one of four ways. *)
Lemma dispatch_cases (service : pystr)
    (target data dataopt variables : option dict) (w : world) :
  (exists e, dispatch service target data dataopt variables w = (Raise e, w))
  \/ (exists name value,
        dispatch service target data dataopt variables w =
        (Return (ha_result (py "200: OK")), setting_written name value w))
  \/ dispatch service target data dataopt variables w =
     (Return (ha_result (py "Request error: Volume_Float_Conversion")), w)
  \/ (exists q,
        dispatch service target data dataopt variables w = post q w).
Proof.
  unfold _call_ha_service. cbv zeta.
  destruct (split_once 46 service) as [[domain service_name]|];
    [|left; eexists; reflexivity].
  destruct (startswith service (py "script.") && _);
    [right; right; right; eexists; reflexivity|].
  destruct (str_eqb service (py "input_select.select_option") && _).
  { destruct (eq_str _ (py "input_select.preferences")) eqn:E.
    - apply eq_str_eq in E. rewrite E, set_preferences.
      right; left. eexists _, _. reflexivity.
    - right; right; right; eexists; reflexivity. }
  destruct (startswith service (py "notify.") && _).
  { destruct (startswith service (py "notify.echo_"));
      right; right; right; eexists; reflexivity. }
  destruct (eq_str _ (py "switch.debug")) eqn:E.
  { apply eq_str_eq in E. rewrite E, set_debug_switch.
    right; left. eexists _, _. reflexivity. }
  destruct (eq_str _ (py "media_player.base_speaker") && _) eqn:B;
    [|right; right; right; eexists; reflexivity].
  apply andb_true_iff in B. destruct B as [B _].
  unfold _set_virtual_entity_base. rewrite B.
  destruct (py_float float_of_str _) as [f|[]].
  - right; right; right; eexists; reflexivity.
  - right; right; left. reflexivity.
  - left; eexists; reflexivity.
  - left; eexists; reflexivity.
  - left; eexists; reflexivity.
  - left; eexists; reflexivity.
Qed.

Lemma post_trace (q : request) (w : world) :
  snd (post q w) = record_event (HttpPost q) w.
Proof. unfold post_and_report. destruct (requests_post _ _); reflexivity. Qed.

Lemma default_branch_conditions (service : pystr)
    (data variables : option dict) :
  default_branch service data variables = true ->
  startswith service (py "script.") && dict_truthy (or_empty variables) = false
  /\ str_eqb service (py "input_select.select_option")
     && dict_truthy (or_empty data) = false
  /\ startswith service (py "notify.") && dict_truthy (or_empty data) = false.
Proof.
  unfold default_branch, script_branch, select_branch, notify_branch.
  rewrite !andb_true_iff, !negb_true_iff. tauto.
Qed.

(** C1: in the default branch a call aimed at [switch.debug] writes
    ["Log Mode"] to the preference store, ["Debug"] for the action
    [turn_on] and ["Info"] for any other, makes no network call and
    returns ["200: OK"]. *)
Theorem debug_switch_sets_log_mode (service domain action : pystr)
    (target data dataopt variables : option dict) (w : world) :
  split_once 46 service = Some (domain, action) ->
  default_branch service data variables = true ->
  dict_get (or_empty target) (py "entity_id") = PStr (py "switch.debug") ->
  let mode :=
    PStr (if str_eqb action (py "turn_on") then py "Debug" else py "Info") in
  let w' := snd (dispatch service target data dataopt variables w) in
  fst (dispatch service target data dataopt variables w) =
    Return (ha_result (py "200: OK"))
  /\ trace w' = trace w ++ [PrefSet (py "Log Mode") mode;
                            PrefGet (py "Log Mode")]
  /\ settings w' = dict_set (settings w) (py "Log Mode") mode
  /\ network_calls (trace w') = network_calls (trace w).
Proof.
  intros Hs Hd He mode w'. subst w'.
  destruct (default_branch_conditions _ _ _ Hd) as (H1 & H2 & H3).
  unfold _call_ha_service. cbv zeta. rewrite Hs, H1, H2, H3, He.
  replace (eq_str (PStr (py "switch.debug")) (py "switch.debug")) with true
    by reflexivity.
  rewrite set_debug_switch. unfold eq_str, fst, snd, setting_written, trace, settings.
  replace (if str_eqb action (py "turn_on") then PStr (py "Debug")
           else PStr (py "Info")) with mode
    by (subst mode; destruct (str_eqb action (py "turn_on")); reflexivity).
  repeat split.
  unfold network_calls. rewrite filter_app, length_app. simpl. lia.
Qed.

(** C2: [input_select.select_option] with data, aimed at
    [input_select.preferences], writes the option of the data under
    ["Default Preference"], makes no network call and returns
    ["200: OK"]. *)
Theorem preferences_option_is_stored
    (target data dataopt variables : option dict) (w : world) :
  dict_truthy (or_empty data) = true ->
  dict_get (or_empty target) (py "entity_id") =
    PStr (py "input_select.preferences") ->
  let option := dict_get (or_empty data) (py "option") in
  let w' := snd (dispatch (py "input_select.select_option")
                   target data dataopt variables w) in
  fst (dispatch (py "input_select.select_option")
         target data dataopt variables w) =
    Return (ha_result (py "200: OK"))
  /\ trace w' = trace w ++ [PrefSet (py "Default Preference") option;
                            PrefGet (py "Default Preference")]
  /\ settings w' = dict_set (settings w) (py "Default Preference") option
  /\ network_calls (trace w') = network_calls (trace w).
Proof.
  intros Hd He option w'. subst w' option.
  unfold _call_ha_service. cbv zeta.
  replace (split_once 46 (py "input_select.select_option"))
    with (Some (py "input_select", py "select_option")) by reflexivity.
  replace (startswith (py "input_select.select_option") (py "script."))
    with false by reflexivity.
  replace (str_eqb (py "input_select.select_option")
             (py "input_select.select_option")) with true by reflexivity.
  rewrite Hd, He.
  replace (eq_str (PStr (py "input_select.preferences"))
             (py "input_select.preferences")) with true by reflexivity.
  cbv [andb]. rewrite set_preferences.
  unfold fst, snd, setting_written, trace, settings.
  repeat split.
  unfold network_calls. rewrite filter_app, length_app. simpl. lia.
Qed.

(** The volume path: in the default branch a call with data aimed at
    [media_player.base_speaker] converts [data.get("volume_level")] and,
    by the result, posts to the secondary API, reports the conversion
    error, or lets the exception through. *)
Lemma base_speaker_volume (service domain action : pystr)
    (target data dataopt variables : option dict) (w : world) :
  split_once 46 service = Some (domain, action) ->
  default_branch service data variables = true ->
  dict_get (or_empty target) (py "entity_id") =
    PStr (py "media_player.base_speaker") ->
  dict_truthy (or_empty data) = true ->
  dispatch service target data dataopt variables w =
  match py_float float_of_str (dict_get (or_empty data) (py "volume_level")) with
  | Return level =>
      post (secondary_request self
              [(py "volume", PDict [(py "level", PFloat level)])]) w
  | Raise ValueError =>
      (Return (ha_result (py "Request error: Volume_Float_Conversion")), w)
  | Raise e => (Raise e, w)
  end.
Proof.
  intros Hs Hd He Hdata.
  destruct (default_branch_conditions _ _ _ Hd) as (H1 & H2 & H3).
  unfold _call_ha_service. cbv zeta. rewrite Hs, H1, H2, H3, He, Hdata.
  replace (eq_str (PStr (py "media_player.base_speaker")) (py "switch.debug"))
    with false by reflexivity.
  replace (eq_str (PStr (py "media_player.base_speaker"))
             (py "media_player.base_speaker")) with true by reflexivity.
  cbv [andb]. unfold _set_virtual_entity_base.
  replace (eq_str (PStr (py "media_player.base_speaker"))
             (py "media_player.base_speaker")) with true by reflexivity.
  reflexivity.
Qed.

Lemma notify_echo_prefix (service : pystr) :
  startswith service (py "notify.echo_") = true ->
  exists rest,
    service = py "notify.echo_" ++ rest
    /\ split_once 46 service = Some (py "notify", py "echo_" ++ rest)
    /\ startswith service (py "script.") = false
    /\ str_eqb service (py "input_select.select_option") = false
    /\ startswith service (py "notify.") = true.
Proof.
  intros H. apply startswith_app in H. destruct H as [rest ->].
  exists rest. repeat split; reflexivity.
Qed.

(** C4 (amended): a [notify.echo_...] service with data is posted to the
    [send_message] action of the [notify] domain, with a payload that
    holds the [entity_id] merged with the data. *)
Theorem notify_echo_payload (service : pystr)
    (target data dataopt variables : option dict) (w : world) :
  startswith service (py "notify.echo_") = true ->
  dict_truthy (or_empty data) = true ->
  let q :=
    primary_request self
      (service_url self (py "notify") (py "send_message"))
      (dict_update
         [(py "entity_id", dict_get (or_empty target) (py "entity_id"))]
         (or_empty data)) in
  dispatch service target data dataopt variables w = post q w
  /\ trace (snd (dispatch service target data dataopt variables w)) =
     trace w ++ [HttpPost q].
Proof.
  intros Hp Hd q.
  assert (E : dispatch service target data dataopt variables w = post q w).
  { destruct (notify_echo_prefix _ Hp) as (rest & _ & Hs & H1 & H2 & H3).
    unfold _call_ha_service. cbv zeta.
    rewrite Hs, H1, H2, H3, Hp, Hd. reflexivity. }
  split; [exact E|]. rewrite E, post_trace. reflexivity.
Qed.

(** C5 (amended): when an invocation sends a request, its [ha_result] is
    ["<code>: OK"] for a response whose status lies outside 400..599,
    which includes every 2xx, and ["<code>: <body>"] for one inside; a
    transport failure is not raised but reported as
    ["Request error: <description>"]. *)
Theorem ha_result_of_outcome (service : pystr)
    (target data dataopt variables : option dict) (w : world) (q : request) :
  trace (snd (dispatch service target data dataopt variables w)) =
    trace w ++ [HttpPost q] ->
  let result := fst (dispatch service target data dataopt variables w) in
  (forall r, requests_post (trace w) q = Response r ->
     (200 <= status_code r < 300)%Z ->
     result = Return (ha_result (str_of_int (status_code r) ++ py ": OK")))
  /\ (forall r, requests_post (trace w) q = Response r ->
       ~ (400 <= status_code r < 600)%Z ->
       result = Return (ha_result (str_of_int (status_code r) ++ py ": OK")))
  /\ (forall r, requests_post (trace w) q = Response r ->
       (400 <= status_code r < 600)%Z ->
       result = Return (ha_result
                          (str_of_int (status_code r) ++ py ": " ++ text r)))
  /\ (forall e, requests_post (trace w) q = RequestException e ->
       result = Return (ha_result (py "Request error: " ++ e))).
Proof.
  intros Ht result. subst result.
  destruct (dispatch_cases service target data dataopt variables w)
    as [[e E]|[(n & v & E)|[E|[q' E]]]]; rewrite E in Ht |- *.
  - simpl in Ht. rewrite <- (app_nil_r (trace w)) in Ht at 1.
    apply app_inv_head in Ht. discriminate.
  - simpl in Ht. apply app_inv_head in Ht. discriminate.
  - simpl in Ht. rewrite <- (app_nil_r (trace w)) in Ht at 1.
    apply app_inv_head in Ht. discriminate.
  - rewrite post_trace in Ht. simpl in Ht. apply app_inv_head in Ht.
    inversion Ht; subst q'. clear Ht E.
    unfold post_and_report.
    assert (Hok : forall r, ok r = true <-> ~ (400 <= status_code r < 600)%Z).
    { intros r. unfold ok. rewrite negb_true_iff, andb_false_iff.
      rewrite Z.leb_gt, Z.ltb_ge. lia. }
    repeat split.
    + intros r -> Hc. simpl.
      replace (ok r) with true by (symmetry; apply Hok; lia). reflexivity.
    + intros r -> Hc. simpl.
      replace (ok r) with true by (symmetry; apply Hok; exact Hc). reflexivity.
    + intros r -> Hc. simpl.
      destruct (ok r) eqn:O; [apply Hok in O; contradiction | reflexivity].
    + intros e ->. reflexivity.
Qed.

Lemma count_app (t evs : list event) :
  network_calls (t ++ evs) = (network_calls t + network_calls evs)%nat
  /\ settings_mutations (t ++ evs) =
     (settings_mutations t + settings_mutations evs)%nat.
Proof.
  unfold network_calls, settings_mutations.
  rewrite !filter_app, !length_app. split; reflexivity.
Qed.

Ltac count_effects :=
  unfold network_calls, settings_mutations; simpl; lia.

(** An invocation that returns without a request returns one of the two
    synthetic results. *)
Lemma ha_result_without_request (service : pystr)
    (target data dataopt variables : option dict) (w : world) (d : dict) :
  fst (dispatch service target data dataopt variables w) = Return d ->
  network_calls (trace (snd (dispatch service target data dataopt variables w)))
    = network_calls (trace w) ->
  d = ha_result (py "200: OK")
  \/ d = ha_result (py "Request error: Volume_Float_Conversion").
Proof.
  destruct (dispatch_cases service target data dataopt variables w)
    as [[e E]|[(n & v & E)|[E|[q E]]]]; rewrite E.
  - discriminate.
  - intros H _. inversion H. left; reflexivity.
  - intros H _. inversion H. right; reflexivity.
  - rewrite post_trace. unfold record_event, trace at 1.
    destruct (count_app (trace w) [HttpPost q]) as [-> _].
    intros _. count_effects.
Qed.

(** C6 (amended): an invocation performs at most one side effect, a
    network call or a settings mutation and never both; it performs
    exactly one whenever it returns a result other than the volume
    conversion error. *)
Theorem at_most_one_side_effect (service : pystr)
    (target data dataopt variables : option dict) (w : world) :
  exists evs,
    trace (snd (dispatch service target data dataopt variables w)) =
      trace w ++ evs
    /\ (network_calls evs + settings_mutations evs <= 1)%nat
    /\ (forall d,
          fst (dispatch service target data dataopt variables w) = Return d ->
          d <> ha_result (py "Request error: Volume_Float_Conversion") ->
          (network_calls evs + settings_mutations evs = 1)%nat).
Proof.
  destruct (dispatch_cases service target data dataopt variables w)
    as [[e E]|[(n & v & E)|[E|[q E]]]]; rewrite E.
  - exists []. unfold fst, snd. rewrite app_nil_r.
    split; [reflexivity|]. split; [count_effects | discriminate].
  - exists [PrefSet n v; PrefGet n]. unfold fst, snd.
    split; [reflexivity|]. split; [count_effects | intros; reflexivity].
  - exists []. unfold fst, snd. rewrite app_nil_r.
    split; [reflexivity|]. split; [count_effects|].
    intros d H. inversion H; subst d. congruence.
  - exists [HttpPost q]. rewrite post_trace.
    split; [reflexivity|]. split; [count_effects | intros; reflexivity].
Qed.

(** C9: a service name without a ["."] makes the dispatcher raise at the
    split into domain and action, before any routing and any effect; so
    it returns only for service names that have one. *)
Theorem dispatch_needs_separator (service : pystr)
    (target data dataopt variables : option dict) (w : world) :
  ~ In 46%N service ->
  dispatch service target data dataopt variables w = (Raise ValueError, w)
  /\ (forall d w',
        dispatch service target data dataopt variables w <> (Return d, w')).
Proof.
  intros H. apply split_once_none in H.
  assert (E : dispatch service target data dataopt variables w
              = (Raise ValueError, w)).
  { unfold _call_ha_service. cbv zeta. rewrite H. reflexivity. }
  split; [exact E|]. intros d w'. rewrite E. discriminate.
Qed.

(** C10: in the default branch a call aimed at
    [media_player.base_speaker] with empty data is an ordinary call: one
    request to the primary control plane, with the bearer token and a
    payload that holds the [entity_id] alone. *)
Theorem base_speaker_without_data (service domain action : pystr)
    (target data dataopt variables : option dict) (w : world) :
  split_once 46 service = Some (domain, action) ->
  default_branch service data variables = true ->
  dict_get (or_empty target) (py "entity_id") =
    PStr (py "media_player.base_speaker") ->
  dict_truthy (or_empty data) = false ->
  let q :=
    primary_request self (service_url self domain action)
      [(py "entity_id", PStr (py "media_player.base_speaker"))] in
  dispatch service target data dataopt variables w = post q w
  /\ trace (snd (dispatch service target data dataopt variables w)) =
     trace w ++ [HttpPost q]
  /\ settings (snd (dispatch service target data dataopt variables w)) =
     settings w.
Proof.
  intros Hs Hd He Hdata q.
  assert (E : dispatch service target data dataopt variables w = post q w).
  { destruct (default_branch_conditions _ _ _ Hd) as (H1 & H2 & H3).
    unfold _call_ha_service. cbv zeta. rewrite Hs, H1, H2, H3, He, Hdata.
    replace (eq_str (PStr (py "media_player.base_speaker")) (py "switch.debug"))
      with false by reflexivity.
    rewrite andb_false_r.
    destruct (or_empty data); [reflexivity | discriminate]. }
  split; [exact E|]. rewrite E, post_trace. split; reflexivity.
Qed.

End DispatchProperties.

(** ** Closed instances *)

(** The volume examples of the specification, with CPython's [float]. *)
Example volume_fifty :
  _call_ha_service Reference.float_of_str (Sample.answers 200 "") Sample.hub
    (py "media_player.volume_set") (Sample.entity "media_player.base_speaker")
    (Some [(py "volume_level", PStr (py "50"))]) None None Sample.fresh =
  (Return (ha_result (py "200: OK")),
   {| settings := [];
      trace := [HttpPost
        {| url := py "http://max.local:5000/control";
           headers := [(py "Content-Type", py "application/json")];
           json := PDict [(py "volume",
                     PDict [(py "level",
                       PFloat (SpecFloat.S754_finite false 7036874417766400 (-47)))])];
           timeout := 10 |}] |}).
Proof. vm_compute. reflexivity. Qed.

Example volume_not_a_number :
  _call_ha_service Reference.float_of_str (Sample.answers 200 "") Sample.hub
    (py "media_player.volume_set") (Sample.entity "media_player.base_speaker")
    (Some [(py "volume_level", PStr (py "abc"))]) None None Sample.fresh =
  (Return (ha_result (py "Request error: Volume_Float_Conversion")),
   Sample.fresh).
Proof. vm_compute. reflexivity. Qed.

(** C3 (the code departs from it): a failed conversion is to give an error
    result, but only [ValueError] is handled.  A call with data that has no
    ["volume_level"] converts [None], and the [TypeError] of [float] leaves
    the dispatcher unhandled, whatever the runtime and the network do. *)
Theorem base_speaker_missing_level_raises
    (float_of_str : pystr -> option pyfloat)
    (requests_post : list event -> request -> http_outcome)
    (self : hagpt) (w : world) :
  _call_ha_service float_of_str requests_post self
    (py "media_player.volume_mute") (Sample.entity "media_player.base_speaker")
    (Some [(py "is_volume_muted", PBool true)]) None None w =
  (Raise TypeError, w).
Proof. reflexivity. Qed.

Lemma debug_switch_sets_log_mode_witness :
  let run :=
    _call_ha_service Reference.float_of_str Sample.times_out Sample.hub
      (py "switch.turn_on") (Sample.entity "switch.debug") None None None
      Sample.fresh in
  fst run = Return (ha_result (py "200: OK"))
  /\ trace (snd run) = [PrefSet (py "Log Mode") (PStr (py "Debug"));
                        PrefGet (py "Log Mode")]
  /\ settings (snd run) = [(py "Log Mode", PStr (py "Debug"))]
  /\ network_calls (trace (snd run)) = 0%nat.
Proof.
  apply (debug_switch_sets_log_mode Reference.float_of_str Sample.times_out
           Sample.hub (py "switch.turn_on") (py "switch") (py "turn_on")
           (Sample.entity "switch.debug") None None None Sample.fresh);
    reflexivity.
Defined.

Lemma preferences_option_is_stored_witness :
  let run :=
    _call_ha_service Reference.float_of_str Sample.times_out Sample.hub
      (py "input_select.select_option")
      (Sample.entity "input_select.preferences")
      (Some [(py "option", PStr (py "Casual"))]) None None Sample.fresh in
  fst run = Return (ha_result (py "200: OK"))
  /\ trace (snd run) = [PrefSet (py "Default Preference") (PStr (py "Casual"));
                        PrefGet (py "Default Preference")]
  /\ settings (snd run) = [(py "Default Preference", PStr (py "Casual"))]
  /\ network_calls (trace (snd run)) = 0%nat.
Proof.
  apply (preferences_option_is_stored Reference.float_of_str Sample.times_out
           Sample.hub (Sample.entity "input_select.preferences")
           (Some [(py "option", PStr (py "Casual"))]) None None Sample.fresh);
    reflexivity.
Defined.

(** C4 as stated fails: the data is merged into the payload of a
    [notify.echo_...] call, which therefore carries more than the
    [entity_id]. *)
Lemma notify_echo_payload_counterexample :
  let run :=
    _call_ha_service Reference.float_of_str (Sample.answers 200 "") Sample.hub
      (py "notify.echo_show") (Sample.entity "notify.echo_show")
      (Some [(py "message", PStr (py "Dinner"))]) None None Sample.fresh in
  exists q,
    trace (snd run) = [HttpPost q]
    /\ url q = py "http://ha.local:8123/api/services/notify/send_message"
    /\ json q = PDict [(py "entity_id", PStr (py "notify.echo_show"));
                       (py "message", PStr (py "Dinner"))]
    /\ json q <> PDict [(py "entity_id", PStr (py "notify.echo_show"))].
Proof.
  eexists. split; [vm_compute; reflexivity|].
  split; [reflexivity|]. split; [reflexivity | discriminate].
Qed.

Lemma notify_echo_payload_witness :
  let q :=
    primary_request Sample.hub
      (py "http://ha.local:8123/api/services/notify/send_message")
      [(py "entity_id", PStr (py "notify.echo_show"));
       (py "message", PStr (py "Dinner"))] in
  let run :=
    _call_ha_service Reference.float_of_str (Sample.answers 200 "") Sample.hub
      (py "notify.echo_show") (Sample.entity "notify.echo_show")
      (Some [(py "message", PStr (py "Dinner"))]) None None Sample.fresh in
  run = post_and_report (Sample.answers 200 "") q Sample.fresh
  /\ trace (snd run) = [HttpPost q].
Proof.
  apply (notify_echo_payload Reference.float_of_str (Sample.answers 200 "")
           Sample.hub (py "notify.echo_show") (Sample.entity "notify.echo_show")
           (Some [(py "message", PStr (py "Dinner"))]) None None Sample.fresh);
    reflexivity.
Defined.

(** C5 as stated fails: a response outside 2xx need not carry its body;
    [Response.ok] holds for a 300, which is reported as ["300: OK"]. *)
Lemma ha_result_non_2xx_counterexample :
  let run :=
    _call_ha_service Reference.float_of_str
      (Sample.answers 300 "Multiple Choices") Sample.hub
      (py "light.turn_on") (Sample.entity "light.kitchen") None None None
      Sample.fresh in
  fst run = Return (ha_result (py "300: OK"))
  /\ fst run <> Return (ha_result (py "300: Multiple Choices")).
Proof. split; [vm_compute; reflexivity | vm_compute; discriminate]. Qed.

Lemma ha_result_of_outcome_witness :
  let q :=
    primary_request Sample.hub
      (py "http://ha.local:8123/api/services/light/turn_on")
      [(py "entity_id", PStr (py "light.kitchen"));
       (py "brightness", PInt 80)] in
  let run (net : list event -> request -> http_outcome) :=
    _call_ha_service Reference.float_of_str net Sample.hub
      (py "light.turn_on") (Sample.entity "light.kitchen")
      (Some [(py "brightness", PInt 80)]) None None Sample.fresh in
  trace (snd (run (Sample.answers 404 "Not Found"))) = [HttpPost q]
  /\ fst (run (Sample.answers 404 "Not Found")) =
     Return (ha_result (py "404: Not Found"))
  /\ fst (run (Sample.answers 200 "[]")) = Return (ha_result (py "200: OK"))
  /\ fst (run Sample.times_out) =
     Return (ha_result (py "Request error: timed out")).
Proof.
  intros q run.
  pose proof (fun net =>
    ha_result_of_outcome Reference.float_of_str net Sample.hub
      (py "light.turn_on") (Sample.entity "light.kitchen")
      (Some [(py "brightness", PInt 80)]) None None Sample.fresh q) as T.
  split; [reflexivity|]. split; [|split].
  - destruct (T (Sample.answers 404 "Not Found") eq_refl) as (_ & _ & H & _).
    apply (H {| status_code := 404; text := py "Not Found" |} eq_refl).
    simpl; lia.
  - destruct (T (Sample.answers 200 "[]") eq_refl) as (H & _).
    apply (H {| status_code := 200; text := py "[]" |} eq_refl).
    simpl; lia.
  - destruct (T Sample.times_out eq_refl) as (_ & _ & _ & H).
    apply (H (py "timed out") eq_refl).
Defined.

(** C6 as stated fails: when the volume does not convert, the invocation
    returns with no network call and no settings mutation. *)
Lemma no_side_effect_counterexample :
  let run :=
    _call_ha_service Reference.float_of_str (Sample.answers 200 "") Sample.hub
      (py "media_player.volume_set") (Sample.entity "media_player.base_speaker")
      (Some [(py "volume_level", PStr (py "abc"))]) None None Sample.fresh in
  fst run = Return (ha_result (py "Request error: Volume_Float_Conversion"))
  /\ (network_calls (trace (snd run)) + settings_mutations (trace (snd run))
      = 0)%nat
  /\ (network_calls (trace (snd run)) + settings_mutations (trace (snd run))
      <> 1)%nat.
Proof. split; [|split]; vm_compute; [reflexivity | reflexivity | discriminate]. Qed.

Lemma dispatch_needs_separator_witness :
  ~ In 46%N (py "reboot")
  /\ _call_ha_service Reference.float_of_str Sample.times_out Sample.hub
       (py "reboot") None None None None Sample.fresh =
     (Raise ValueError, Sample.fresh).
Proof.
  assert (H : ~ In 46%N (py "reboot")).
  { apply split_once_none. reflexivity. }
  split; [exact H|].
  apply (dispatch_needs_separator Reference.float_of_str Sample.times_out
           Sample.hub (py "reboot") None None None None Sample.fresh H).
Defined.

Lemma base_speaker_without_data_witness :
  let q :=
    primary_request Sample.hub
      (py "http://ha.local:8123/api/services/media_player/media_pause")
      [(py "entity_id", PStr (py "media_player.base_speaker"))] in
  let run :=
    _call_ha_service Reference.float_of_str (Sample.answers 200 "") Sample.hub
      (py "media_player.media_pause")
      (Sample.entity "media_player.base_speaker") (Some []) None None
      Sample.fresh in
  run = post_and_report (Sample.answers 200 "") q Sample.fresh
  /\ trace (snd run) = [HttpPost q]
  /\ settings (snd run) = [].
Proof.
  apply (base_speaker_without_data Reference.float_of_str
           (Sample.answers 200 "") Sample.hub
           (py "media_player.media_pause") (py "media_player")
           (py "media_pause") (Sample.entity "media_player.base_speaker")
           (Some []) None None Sample.fresh);
    reflexivity.
Defined.

(** * The rest of the code *)

(** ** Dictionaries *)

Lemma dict_get_set_same (d : dict) (k : pystr) (v : pyval) :
  dict_get (dict_set d k v) k = v.
Proof.
  induction d as [|[k' v'] d IH]; simpl.
  - rewrite str_eqb_refl. reflexivity.
  - destruct (str_eqb k' k) eqn:E; simpl; rewrite E; [reflexivity | exact IH].
Qed.

Lemma str_eqb_trans_false (a b c : pystr) :
  str_eqb a b = true -> str_eqb b c = false -> str_eqb a c = false.
Proof.
  intros H. apply str_eqb_eq in H. subst b. tauto.
Qed.

Lemma dict_get_set_other (d : dict) (k k' : pystr) (v : pyval) :
  str_eqb k k' = false -> dict_get (dict_set d k v) k' = dict_get d k'.
Proof.
  intros H. induction d as [|[k0 v0] d IH]; simpl.
  - rewrite H. reflexivity.
  - destruct (str_eqb k0 k) eqn:E; simpl.
    + rewrite (str_eqb_trans_false _ _ _ E H). reflexivity.
    + rewrite IH. reflexivity.
Qed.

Lemma dict_has_key_set (d : dict) (k k' : pystr) (v : pyval) :
  dict_has_key (dict_set d k v) k' = str_eqb k k' || dict_has_key d k'.
Proof.
  unfold dict_has_key. induction d as [|[k0 v0] d IH]; simpl.
  - reflexivity.
  - destruct (str_eqb k0 k) eqn:E; simpl.
    + apply str_eqb_eq in E. subst k0.
      destruct (str_eqb k k'); reflexivity.
    + rewrite IH. destruct (str_eqb k0 k'), (str_eqb k k'); reflexivity.
Qed.

Lemma existsb_reverse {A : Type} (f : A -> bool) (l : list A) :
  existsb f (rev l) = existsb f l.
Proof.
  induction l as [|a l IH]; simpl; [reflexivity|].
  rewrite existsb_app, IH. simpl. rewrite orb_false_r. apply orb_comm.
Qed.

(** After [d.update(e)] a key of [e] has the value of its last entry in [e],
    any other key the value it had in [d]. *)
Lemma dict_get_update (e d : dict) (k : pystr) :
  dict_get (dict_update d e) k =
  if dict_has_key e k then dict_get (rev e) k else dict_get d k.
Proof.
  unfold dict_update. revert d.
  induction e as [|[k0 v0] e IH]; intros d; simpl; [reflexivity|].
  rewrite IH. unfold dict_has_key. simpl.
  assert (R : forall l a, dict_get (l ++ [a]) k =
              if existsb (fun kv => str_eqb (fst kv) k) l then dict_get l k
              else if str_eqb (fst a) k then snd a else PNone).
  { intros l [ka va]. induction l as [|[k1 v1] l IHl]; simpl; [reflexivity|].
    destruct (str_eqb k1 k); simpl; [reflexivity | exact IHl]. }
  rewrite R, existsb_reverse. simpl.
  destruct (existsb (fun kv => str_eqb (fst kv) k) e) eqn:X.
  - rewrite orb_true_r. reflexivity.
  - rewrite orb_false_r. destruct (str_eqb k0 k) eqn:E.
    + apply str_eqb_eq in E. subst k0. apply dict_get_set_same.
    + apply dict_get_set_other, E.
Qed.

(** Updating with fresh, pairwise distinct keys appends them in order. *)
Lemma dict_update_fresh (e d : dict) :
  NoDup (map fst e) ->
  (forall k, In k (map fst e) -> dict_has_key d k = false) ->
  dict_update d e = d ++ e.
Proof.
  unfold dict_update. revert d.
  induction e as [|[k v] e IH]; intros d Hn Hf; simpl.
  - rewrite app_nil_r. reflexivity.
  - inversion Hn as [|? ? Hk Hn']; subst.
    assert (S : dict_set d k v = d ++ [(k, v)]).
    { assert (F : dict_has_key d k = false) by (apply Hf; left; reflexivity).
      clear -F. unfold dict_has_key in F.
      induction d as [|[k1 v1] d IHd]; simpl in *; [reflexivity|].
      apply orb_false_iff in F. destruct F as [F1 F2].
      rewrite F1, (IHd F2). reflexivity. }
    rewrite S, IH; [rewrite <- app_assoc; reflexivity | exact Hn' |].
    intros k' Hin. unfold dict_has_key. rewrite existsb_app. simpl.
    rewrite orb_false_r. apply orb_false_iff. split.
    + apply Hf. right. exact Hin.
    + destruct (str_eqb k k') eqn:E; [|reflexivity].
      apply str_eqb_eq in E. subst k'. contradiction.
Qed.

(** ** Routing of the remaining branches *)

Section DispatchRouting.

Variable float_of_str : pystr -> option pyfloat.
Variable requests_post : list event -> request -> http_outcome.
Variable self : hagpt.

Local Abbreviation dispatch := (_call_ha_service float_of_str requests_post self).
Local Abbreviation post := (post_and_report requests_post).

Lemma sent (q : request) (w : world) :
  trace (snd (post q w)) = trace w ++ [HttpPost q]
  /\ settings (snd (post q w)) = settings w.
Proof.
  unfold post_and_report. destruct (requests_post _ _); split; reflexivity.
Qed.

Lemma script_prefix (service : pystr) :
  startswith service (py "script.") = true ->
  split_once 46 service = Some (py "script", skipn 7 service).
Proof.
  intros H. apply startswith_app in H. destruct H as [rest ->]. reflexivity.
Qed.

Lemma notify_prefix (service : pystr) :
  startswith service (py "notify.") = true ->
  split_once 46 service = Some (py "notify", skipn 7 service)
  /\ startswith service (py "script.") = false
  /\ str_eqb service (py "input_select.select_option") = false.
Proof.
  intros H. apply startswith_app in H. destruct H as [rest ->].
  repeat split; reflexivity.
Qed.

(** X1: a [script.] service with variables takes the first branch whatever
    the target and the data are: the virtual entities are not intercepted,
    the data is not sent, and the payload holds the [entity_id] and the
    variables. *)
Theorem script_call_takes_priority (service : pystr)
    (target data dataopt variables : option dict) (w : world) :
  startswith service (py "script.") = true ->
  dict_truthy (or_empty variables) = true ->
  let q :=
    primary_request self
      (service_url self (py "script") (skipn 7 service))
      [(py "entity_id", dict_get (or_empty target) (py "entity_id"));
       (py "variables", PDict (or_empty variables))] in
  dispatch service target data dataopt variables w = post q w
  /\ trace (snd (dispatch service target data dataopt variables w)) =
     trace w ++ [HttpPost q]
  /\ settings (snd (dispatch service target data dataopt variables w)) =
     settings w.
Proof.
  intros Hp Hv q.
  assert (E : dispatch service target data dataopt variables w = post q w).
  { unfold _call_ha_service. cbv zeta.
    rewrite (script_prefix _ Hp), Hp, Hv. reflexivity. }
  split; [exact E|]. rewrite E. apply sent.
Qed.

(** X2: [input_select.select_option] with data, aimed at any entity other
    than [input_select.preferences] (the debug switch and the base speaker
    included), is a call to the control plane with the [entity_id] merged
    with the data. *)
Theorem select_option_real_entity
    (target data dataopt variables : option dict) (w : world) :
  dict_truthy (or_empty data) = true ->
  eq_str (dict_get (or_empty target) (py "entity_id"))
    (py "input_select.preferences") = false ->
  let q :=
    primary_request self
      (service_url self (py "input_select") (py "select_option"))
      (dict_update
         [(py "entity_id", dict_get (or_empty target) (py "entity_id"))]
         (or_empty data)) in
  dispatch (py "input_select.select_option") target data dataopt variables w
    = post q w
  /\ settings (snd (dispatch (py "input_select.select_option")
                      target data dataopt variables w)) = settings w.
Proof.
  intros Hd He q.
  assert (E : dispatch (py "input_select.select_option")
                target data dataopt variables w = post q w).
  { unfold _call_ha_service. cbv zeta.
    replace (split_once 46 (py "input_select.select_option"))
      with (Some (py "input_select", py "select_option")) by reflexivity.
    replace (startswith (py "input_select.select_option") (py "script."))
      with false by reflexivity.
    replace (str_eqb (py "input_select.select_option")
               (py "input_select.select_option")) with true by reflexivity.
    rewrite Hd, He. reflexivity. }
  split; [exact E|]. rewrite E. apply sent.
Qed.

(** X3: a [notify.] service with data that is no [notify.echo_] service is
    posted to its own action with the data as payload; the [entity_id] of
    the target is not sent.  For data with distinct keys the payload is the
    data itself. *)
Theorem notify_payload_is_data (service : pystr)
    (target data dataopt variables : option dict) (w : world) :
  startswith service (py "notify.") = true ->
  startswith service (py "notify.echo_") = false ->
  dict_truthy (or_empty data) = true ->
  let q :=
    primary_request self
      (service_url self (py "notify") (skipn 7 service))
      (dict_update [] (or_empty data)) in
  dispatch service target data dataopt variables w = post q w
  /\ (NoDup (map fst (or_empty data)) ->
      json q = PDict (or_empty data)).
Proof.
  intros Hp He Hd q.
  destruct (notify_prefix _ Hp) as (Hs & H1 & H2).
  split.
  - unfold _call_ha_service. cbv zeta.
    rewrite Hs, H1, H2, Hp, He, Hd. reflexivity.
  - intros Hn. subst q. unfold primary_request, json.
    rewrite dict_update_fresh; [reflexivity | exact Hn | reflexivity].
Qed.

(** X4: in the default branch a call that aims neither at the debug switch
    nor, with data, at the base speaker is posted to
    [<ha_url>/api/services/<domain>/<action>] with the [entity_id] merged
    with the data, and leaves the settings alone. *)
Theorem ordinary_device_call (service domain action : pystr)
    (target data dataopt variables : option dict) (w : world) :
  split_once 46 service = Some (domain, action) ->
  default_branch service data variables = true ->
  eq_str (dict_get (or_empty target) (py "entity_id")) (py "switch.debug")
    = false ->
  eq_str (dict_get (or_empty target) (py "entity_id"))
    (py "media_player.base_speaker") && dict_truthy (or_empty data) = false ->
  let q :=
    primary_request self (service_url self domain action)
      (dict_update
         [(py "entity_id", dict_get (or_empty target) (py "entity_id"))]
         (or_empty data)) in
  dispatch service target data dataopt variables w = post q w
  /\ trace (snd (dispatch service target data dataopt variables w)) =
     trace w ++ [HttpPost q]
  /\ settings (snd (dispatch service target data dataopt variables w)) =
     settings w.
Proof.
  intros Hs Hd H1 H2 q.
  assert (E : dispatch service target data dataopt variables w = post q w).
  { destruct (default_branch_conditions float_of_str _ _ _ Hd) as (B1 & B2 & B3).
    unfold _call_ha_service. cbv zeta.
    rewrite Hs, B1, B2, B3, H1, H2. reflexivity. }
  split; [exact E|]. rewrite E. apply sent.
Qed.

(** X5: in a merged payload the data wins: a key of the data has the value
    the data gives it, the [entity_id] included, and the target's
    [entity_id] is sent only when the data has none. *)
Theorem merged_payload_lookup (entity_id : pyval) (data : dict) (k : pystr) :
  NoDup (map fst data) ->
  let payload := dict_update [(py "entity_id", entity_id)] data in
  (dict_has_key data k = true -> dict_get payload k = dict_get data k)
  /\ (dict_has_key data (py "entity_id") = false ->
      dict_get payload (py "entity_id") = entity_id).
Proof.
  intros Hn payload. subst payload. split; intros H; rewrite dict_get_update, H.
  - clear H. induction data as [|[k0 v0] data IH]; [reflexivity|].
    inversion Hn as [|? ? Hk Hn']; subst. simpl.
    assert (R : forall l a, dict_get (l ++ [a]) k =
                if dict_has_key l k then dict_get l k
                else if str_eqb (fst a) k then snd a else PNone).
    { intros l [ka va]. unfold dict_has_key.
      induction l as [|[k1 v1] l IHl]; simpl; [reflexivity|].
      destruct (str_eqb k1 k); simpl; [reflexivity | exact IHl]. }
    rewrite R. unfold dict_has_key. rewrite existsb_reverse.
    fold (dict_has_key data k). simpl.
    destruct (str_eqb k0 k) eqn:E.
    + apply str_eqb_eq in E. subst k0.
      destruct (dict_has_key data k) eqn:X; [|reflexivity].
      exfalso. apply Hk. unfold dict_has_key in X.
      apply existsb_exists in X. destruct X as [[k1 v1] [Hin X]].
      apply str_eqb_eq in X. simpl in X. subst k1.
      apply (in_map fst) in Hin. exact Hin.
    + destruct (dict_has_key data k) eqn:X; [apply IH, Hn' | ].
      clear -X. unfold dict_has_key in X.
      induction data as [|[k1 v1] data IHd]; simpl in *; [reflexivity|].
      apply orb_false_iff in X. destruct X as [X1 X2]. rewrite X1. auto.
  - simpl. reflexivity.
Qed.

(** Every path through the dispatcher, with the request it sends. *)
Lemma dispatch_shape (service : pystr)
    (target data dataopt variables : option dict) (w : world) :
  (exists e, dispatch service target data dataopt variables w = (Raise e, w))
  \/ (exists name value,
        (name = py "Log Mode" \/ name = py "Default Preference")
        /\ dispatch service target data dataopt variables w =
           (Return (ha_result (py "200: OK")), setting_written name value w))
  \/ dispatch service target data dataopt variables w =
     (Return (ha_result (py "Request error: Volume_Float_Conversion")), w)
  \/ (exists domain action payload,
        split_once 46 service = Some (domain, action)
        /\ dispatch service target data dataopt variables w =
           post (primary_request self (service_url self domain action) payload) w)
  \/ (exists domain payload,
        dispatch service target data dataopt variables w =
        post (primary_request self
                (service_url self domain (py "send_message")) payload) w)
  \/ (exists level,
        dispatch service target data dataopt variables w =
        post (secondary_request self (volume_payload level)) w).
Proof.
  unfold _call_ha_service. cbv zeta.
  destruct (split_once 46 service) as [[domain service_name]|];
    [|left; eexists; reflexivity].
  destruct (startswith service (py "script.") && _).
  { right; right; right; left. eexists _, _, _. split; reflexivity. }
  destruct (str_eqb service (py "input_select.select_option") && _).
  { destruct (eq_str _ (py "input_select.preferences")) eqn:E.
    - apply eq_str_eq in E. rewrite E, set_preferences.
      right; left. eexists _, _. split; [right|]; reflexivity.
    - right; right; right; left. eexists _, _, _. split; reflexivity. }
  destruct (startswith service (py "notify.") && _).
  { destruct (startswith service (py "notify.echo_")).
    - right; right; right; right; left. eexists _, _. reflexivity.
    - right; right; right; left. eexists _, _, _. split; reflexivity. }
  destruct (eq_str _ (py "switch.debug")) eqn:E.
  { apply eq_str_eq in E. rewrite E, set_debug_switch.
    right; left. eexists _, _. split; [left|]; reflexivity. }
  destruct (eq_str _ (py "media_player.base_speaker") && _) eqn:B.
  2:{ right; right; right; left. eexists _, _, _. split; reflexivity. }
  apply andb_true_iff in B. destruct B as [B _].
  unfold _set_virtual_entity_base. rewrite B.
  destruct (py_float float_of_str _) as [f|[]].
  - right; right; right; right; right. eexists. reflexivity.
  - right; right; left. reflexivity.
  - left; eexists; reflexivity.
  - left; eexists; reflexivity.
  - left; eexists; reflexivity.
  - left; eexists; reflexivity.
Qed.

(** X6: whatever is dispatched, a request that is sent has the timeout 10
    and a JSON content type; it goes either to a path under
    [<ha_url>/api/services/], with the bearer token, or to
    [<base_url>/control], and then without any [Authorization] header and
    with a volume payload. *)
Theorem sent_request_shape (service : pystr)
    (target data dataopt variables : option dict) (w : world) (q : request) :
  trace (snd (dispatch service target data dataopt variables w)) =
    trace w ++ [HttpPost q] ->
  timeout q = 10%Z
  /\ In (py "Content-Type", py "application/json") (headers q)
  /\ ((startswith (url q) (ha_url self ++ py "/api/services/") = true
       /\ In (py "Authorization", py "Bearer " ++ ha_token self) (headers q))
      \/ (url q = base_url self ++ py "/control"
          /\ headers q = [(py "Content-Type", py "application/json")]
          /\ exists level, json q = PDict (volume_payload level))).
Proof.
  intros Ht.
  assert (P : forall u payload,
            startswith u (ha_url self ++ py "/api/services/") = true ->
            q = primary_request self u payload ->
            timeout q = 10%Z
            /\ In (py "Content-Type", py "application/json") (headers q)
            /\ ((startswith (url q) (ha_url self ++ py "/api/services/") = true
                 /\ In (py "Authorization", py "Bearer " ++ ha_token self)
                      (headers q))
                \/ (url q = base_url self ++ py "/control"
                    /\ headers q = [(py "Content-Type", py "application/json")]
                    /\ exists level, json q = PDict (volume_payload level)))).
  { intros u payload Hu ->. simpl. split; [reflexivity|].
    split; [right; left; reflexivity|]. left. split; [exact Hu|].
    left; reflexivity. }
  assert (U : forall domain action,
            startswith (service_url self domain action)
              (ha_url self ++ py "/api/services/") = true).
  { intros domain action. apply startswith_app.
    exists (domain ++ py "/" ++ action). unfold service_url.
    rewrite <- app_assoc. reflexivity. }
  destruct (dispatch_shape service target data dataopt variables w)
    as [[e E]|[(n & v & _ & E)|[E|[(d & a & p & _ & E)|[(d & p & E)|[l E]]]]]];
    rewrite E in Ht.
  - simpl in Ht. rewrite <- (app_nil_r (trace w)) in Ht at 1.
    apply app_inv_head in Ht. discriminate.
  - simpl in Ht. apply app_inv_head in Ht. discriminate.
  - simpl in Ht. rewrite <- (app_nil_r (trace w)) in Ht at 1.
    apply app_inv_head in Ht. discriminate.
  - destruct (sent (primary_request self (service_url self d a) p) w) as [T _].
    rewrite T in Ht. apply app_inv_head in Ht. injection Ht as Hq.
    apply (P (service_url self d a) p (U d a)). symmetry. exact Hq.
  - destruct (sent (primary_request self
                      (service_url self d (py "send_message")) p) w) as [T _].
    rewrite T in Ht. apply app_inv_head in Ht. injection Ht as Hq.
    apply (P (service_url self d (py "send_message")) p (U d _)).
    symmetry. exact Hq.
  - destruct (sent (secondary_request self (volume_payload l)) w) as [T _].
    rewrite T in Ht. apply app_inv_head in Ht. injection Ht as Hq.
    subst q. simpl.
    split; [reflexivity|]. split; [left; reflexivity|]. right.
    split; [reflexivity|]. split; [reflexivity|]. exists l. reflexivity.
Qed.

(** X7: the dispatcher writes no setting but ["Log Mode"] and
    ["Default Preference"]: any other setting reads after the call as it
    did before, and when a request was sent the store as a whole is
    unchanged. *)
Theorem settings_frame (service : pystr)
    (target data dataopt variables : option dict) (w : world) :
  let w' := snd (dispatch service target data dataopt variables w) in
  (forall k, str_eqb (py "Log Mode") k = false ->
             str_eqb (py "Default Preference") k = false ->
             dict_get (settings w') k = dict_get (settings w) k)
  /\ (network_calls (trace w') <> network_calls (trace w) ->
      settings w' = settings w).
Proof.
  intros w'. subst w'.
  destruct (dispatch_shape service target data dataopt variables w)
    as [[e E]|[(n & v & Hn & E)|[E|[(d & a & p & _ & E)|[(d & p & E)|[l E]]]]]];
    rewrite E.
  - split; [reflexivity|]. reflexivity.
  - split.
    + intros k H1 H2. simpl.
      apply dict_get_set_other. destruct Hn as [->| ->]; assumption.
    + simpl. intros H. exfalso. apply H.
      unfold network_calls. rewrite filter_app, length_app. simpl. lia.
  - split; reflexivity.
  - destruct (sent (primary_request self (service_url self d a) p) w) as [_ S].
    rewrite S. split; reflexivity.
  - destruct (sent (primary_request self
                      (service_url self d (py "send_message")) p) w) as [_ S].
    rewrite S. split; reflexivity.
  - destruct (sent (secondary_request self (volume_payload l)) w) as [_ S].
    rewrite S. split; reflexivity.
Qed.

(** X8: for the base speaker, a volume value that is [None], a list or a
    mapping makes [float] raise a [TypeError] that the dispatcher does not
    handle; nothing is sent and nothing is written. *)
Theorem volume_of_wrong_type_raises (service domain action : pystr)
    (target data dataopt variables : option dict) (w : world) :
  split_once 46 service = Some (domain, action) ->
  default_branch service data variables = true ->
  dict_get (or_empty target) (py "entity_id") =
    PStr (py "media_player.base_speaker") ->
  dict_truthy (or_empty data) = true ->
  match dict_get (or_empty data) (py "volume_level") with
  | PNone | PList _ | PDict _ => True
  | _ => False
  end ->
  dispatch service target data dataopt variables w = (Raise TypeError, w).
Proof.
  intros Hs Hd He Hdata Hv.
  rewrite (base_speaker_volume float_of_str requests_post self
             service domain action target data dataopt variables w
             Hs Hd He Hdata).
  destruct (dict_get (or_empty data) (py "volume_level"));
    try contradiction; reflexivity.
Qed.

(** X9: a number is accepted as volume as well as a string: an integer
    within the binary64 range is converted and posted to
    [<base_url>/control]; an integer beyond it raises [OverflowError],
    unhandled. *)
Theorem volume_of_integer (service domain action : pystr)
    (target data dataopt variables : option dict) (w : world) (n : Z) :
  split_once 46 service = Some (domain, action) ->
  default_branch service data variables = true ->
  dict_get (or_empty target) (py "entity_id") =
    PStr (py "media_player.base_speaker") ->
  dict_truthy (or_empty data) = true ->
  dict_get (or_empty data) (py "volume_level") = PInt n ->
  match float_of_int n with
  | Return level =>
      dispatch service target data dataopt variables w =
      post (secondary_request self (volume_payload level)) w
  | Raise e =>
      e = OverflowError
      /\ dispatch service target data dataopt variables w =
         (Raise OverflowError, w)
  end.
Proof.
  intros Hs Hd He Hdata Hv.
  rewrite (base_speaker_volume float_of_str requests_post self
             service domain action target data dataopt variables w
             Hs Hd He Hdata), Hv.
  simpl py_float. unfold float_of_int.
  destruct (SpecFloat.binary_normalize 53 1024 n 0 false);
    try reflexivity. split; reflexivity.
Qed.

(** X10: [input_select.select_option] with empty data is not the select
    branch: aimed at [input_select.preferences] it does not touch the
    preference store but is posted to the control plane with the
    [entity_id] alone. *)
Theorem preferences_without_data_not_intercepted
    (target data dataopt variables : option dict) (w : world) :
  dict_truthy (or_empty data) = false ->
  dict_get (or_empty target) (py "entity_id") =
    PStr (py "input_select.preferences") ->
  let q :=
    primary_request self
      (service_url self (py "input_select") (py "select_option"))
      [(py "entity_id", PStr (py "input_select.preferences"))] in
  dispatch (py "input_select.select_option") target data dataopt variables w
    = post q w
  /\ settings (snd (dispatch (py "input_select.select_option")
                      target data dataopt variables w)) = settings w.
Proof.
  intros Hd He q.
  assert (E : dispatch (py "input_select.select_option")
                target data dataopt variables w = post q w).
  { unfold _call_ha_service. cbv zeta.
    replace (split_once 46 (py "input_select.select_option"))
      with (Some (py "input_select", py "select_option")) by reflexivity.
    replace (startswith (py "input_select.select_option") (py "script."))
      with false by reflexivity.
    replace (startswith (py "input_select.select_option") (py "notify."))
      with false by reflexivity.
    rewrite Hd, He.
    replace (eq_str (PStr (py "input_select.preferences")) (py "switch.debug"))
      with false by reflexivity.
    rewrite andb_false_r. cbv [andb].
    destruct (or_empty data); [reflexivity | discriminate]. }
  split; [exact E|]. rewrite E. apply sent.
Qed.

End DispatchRouting.

(** ** The reply parser, continued *)

(** X11: the error of the JSON decoder never leaves the parser. *)
Theorem decode_error_never_escapes (json_loads : pystr -> outcome pyval)
    (ai_response : pystr) :
  _clean_ai_response json_loads ai_response <> Raise JSONDecodeError.
Proof.
  unfold _clean_ai_response.
  destruct (json_loads (strip_fences ai_response)) as [v|[]];
    try discriminate.
  destruct v; simpl; discriminate.
Qed.

(** X12: a reply that decodes to anything but an object (a number, a
    string, a list, a truth value, null) makes the parser raise
    [AttributeError]. *)
Theorem non_object_reply_raises (json_loads : pystr -> outcome pyval)
    (ai_response : pystr) (v : pyval) :
  json_loads (strip_fences ai_response) = Return v ->
  (forall d, v <> PDict d) ->
  _clean_ai_response json_loads ai_response = Raise AttributeError.
Proof.
  intros H Hv. unfold _clean_ai_response. rewrite H.
  destruct v; try reflexivity. exfalso. apply (Hv d). reflexivity.
Qed.

Lemma in_lstrip (x : N) (s : pystr) : In x (lstrip s) -> In x s.
Proof.
  induction s as [|c s IH]; simpl; [tauto|].
  destruct (isspace c); [right; auto | tauto].
Qed.

Lemma in_strip (x : N) (s : pystr) : In x (strip s) -> In x s.
Proof.
  unfold strip, rstrip. intros H.
  apply in_rev, in_lstrip in H. apply in_rev in H.
  apply in_lstrip. exact H.
Qed.

(** X13: a reply without any backquote is only trimmed: no fence is
    removed, and when it is no JSON the reply text is the trimmed input. *)
Theorem reply_without_backquote_is_trimmed
    (json_loads : pystr -> outcome pyval) (ai_response : pystr) :
  ~ In 96%N ai_response ->
  strip_fences ai_response = strip ai_response
  /\ (json_loads (strip ai_response) = Raise JSONDecodeError ->
      _clean_ai_response json_loads ai_response =
      Return {| service := PNone; target := PDict []; variables := PDict [];
                response_text := PStr (strip ai_response);
                data := PDict [] |}).
Proof.
  intros H.
  assert (E : strip_fences ai_response = strip ai_response).
  { apply strip_fences_unfenced. unfold fenced.
    apply orb_false_iff. split.
    - destruct (startswith (strip ai_response) fence) eqn:S; [|reflexivity].
      apply startswith_app in S. destruct S as [r S].
      exfalso. apply H, in_strip. rewrite S. left. reflexivity.
    - destruct (startswith (rev (strip ai_response)) fence) eqn:S; [|reflexivity].
      apply startswith_app in S. destruct S as [r S].
      exfalso. apply H, in_strip, in_rev. rewrite S. left. reflexivity. }
  split; [exact E|]. intros J.
  rewrite <- E in J |- *. apply clean_ai_response_fallback, J.
Qed.

(** ** [process_ai_response] *)

Section OrchestratorProperties.

Variable json_loads : pystr -> outcome pyval.
Variable float_of_str : pystr -> option pyfloat.
Variable requests_post : list event -> request -> http_outcome.
Variable int_of_str : pystr -> option Z.
Variable self : hagpt.

Local Abbreviation process :=
  (process_ai_response json_loads float_of_str requests_post int_of_str self).
Local Abbreviation dispatch := (_call_ha_service float_of_str requests_post self).

(** X14: a reply whose service is absent or falsy (null, the empty string,
    0, false, an empty list or object) is not dispatched: the world is
    unchanged, [ha_result] is [None] and the parsed fields are returned. *)
Theorem no_service_no_dispatch (ai_response : pystr) (w : world) (i : intent) :
  _clean_ai_response json_loads ai_response = Return i ->
  truthy (service i) = false ->
  process ai_response w =
  Some (Return {| p_service := service i; p_target := target i;
                  p_data := data i; p_dataopt := PDict [];
                  p_variables := variables i;
                  p_response_text := response_text i;
                  p_ha_result := PNone |}, w).
Proof.
  intros H Hs. unfold process_ai_response. rewrite H. cbv zeta.
  rewrite Hs. reflexivity.
Qed.

(** X15: a reply that is no JSON goes through both stages as plain text:
    nothing is dispatched and the reply text is the cleaned input. *)
Theorem plain_text_reply (ai_response : pystr) (w : world) :
  json_loads (strip_fences ai_response) = Raise JSONDecodeError ->
  process ai_response w =
  Some (Return {| p_service := PNone; p_target := PDict [];
                  p_data := PDict []; p_dataopt := PDict [];
                  p_variables := PDict [];
                  p_response_text := PStr (strip_fences ai_response);
                  p_ha_result := PNone |}, w).
Proof.
  intros H. unfold process_ai_response.
  rewrite (clean_ai_response_fallback _ _ H). reflexivity.
Qed.

(** X16: whenever [process_ai_response] returns, the record carries the
    parsed fields as they were parsed, [dataopt] is the empty mapping, and
    [ha_result] is [None] exactly when nothing was dispatched. *)
Theorem processed_fields_pass_through (ai_response : pystr) (w w' : world)
    (r : processed) :
  process ai_response w = Some (Return r, w') ->
  exists i,
    _clean_ai_response json_loads ai_response = Return i
    /\ p_service r = service i /\ p_target r = target i
    /\ p_data r = data i /\ p_variables r = variables i
    /\ p_response_text r = response_text i
    /\ p_dataopt r = PDict []
    /\ (p_ha_result r = PNone <-> truthy (service i) = false)
    /\ (truthy (service i) = false -> w' = w).
Proof.
  unfold process_ai_response.
  destruct (_clean_ai_response json_loads ai_response) as [i|e];
    [|discriminate].
  cbv zeta. intros H. exists i. split; [reflexivity|].
  destruct (truthy (service i)) eqn:T.
  - destruct (service i) as [| | | |name| |]; try discriminate.
    destruct (as_mapping (target i)) as [t|]; [|discriminate].
    destruct (as_mapping (data i)) as [d|]; [|discriminate].
    destruct (as_mapping (variables i)) as [v|]; [|discriminate].
    destruct (_call_ha_service _ _ _ _ _ _ _ _ _) as [[ha|e] w1];
      [|discriminate].
    destruct (dict_get ha (py "ha_result")) as [| | | |h| |]; try discriminate.
    destruct ((200 <=? status_of int_of_str h)%Z
              && (status_of int_of_str h <? 300)%Z).
    + destruct (target i); try discriminate.
      inversion H; subst. simpl.
      repeat split; try reflexivity; try discriminate.
    + inversion H; subst. simpl.
      repeat split; try reflexivity; try discriminate.
  - inversion H; subst. simpl. repeat split; reflexivity.
Qed.

(** X17: a reply whose target is null is dispatched with an empty target;
    when the control plane answers with a 2xx status, [process_ai_response]
    then reads [target.get] on [None] and raises [AttributeError] after the
    request was sent; with any other status it returns. *)
Theorem null_target_fails_after_success (ai_response : pystr) (w w' : world)
    (i : intent) (name ha : pystr) (d v : option dict) :
  _clean_ai_response json_loads ai_response = Return i ->
  service i = PStr name -> name <> [] ->
  target i = PNone ->
  as_mapping (data i) = Some d -> as_mapping (variables i) = Some v ->
  dispatch name None d (Some []) v w = (Return (ha_result ha), w') ->
  if (200 <=? status_of int_of_str ha)%Z && (status_of int_of_str ha <? 300)%Z
  then process ai_response w = Some (Raise AttributeError, w')
  else exists r, process ai_response w = Some (Return r, w')
                 /\ p_ha_result r = PStr ha.
Proof.
  intros H Hs Hn Ht Hd Hv Hc. unfold process_ai_response.
  rewrite H. cbv zeta. rewrite Hs, Ht, Hd, Hv.
  replace (truthy (PStr name)) with true
    by (destruct name; [contradiction | reflexivity]).
  change (as_mapping PNone) with (Some (@None dict)). cbv beta iota.
  rewrite Hc.
  replace (dict_get (ha_result ha) (py "ha_result")) with (PStr ha)
    by reflexivity.
  destruct ((200 <=? status_of int_of_str ha)%Z
            && (status_of int_of_str ha <? 300)%Z).
  - reflexivity.
  - eexists. split; reflexivity.
Qed.

(** X18: for a reply with a string service and a mapping as target,
    [process_ai_response] adds nothing to the dispatcher: it ends in the
    dispatcher's world, returns the dispatcher's [ha_result] whatever the
    status is, and lets an exception of the dispatcher through. *)
Theorem process_follows_dispatch (ai_response : pystr) (w : world)
    (i : intent) (name : pystr) (t : dict) (d v : option dict) :
  _clean_ai_response json_loads ai_response = Return i ->
  service i = PStr name -> name <> [] ->
  target i = PDict t ->
  as_mapping (data i) = Some d -> as_mapping (variables i) = Some v ->
  match dispatch name (Some t) d (Some []) v w with
  | (Return ha_ret, w') =>
      exists r, process ai_response w = Some (Return r, w')
                /\ p_ha_result r = dict_get ha_ret (py "ha_result")
  | (Raise e, w') => process ai_response w = Some (Raise e, w')
  end.
Proof.
  intros H Hs Hn Ht Hd Hv. unfold process_ai_response.
  rewrite H. cbv zeta. rewrite Hs, Ht, Hd, Hv.
  replace (truthy (PStr name)) with true
    by (destruct name; [contradiction | reflexivity]).
  change (as_mapping (PDict t)) with (Some (Some t)). cbv beta iota.
  destruct (dispatch_cases float_of_str requests_post self
              name (Some t) d (Some []) v w)
    as [[e E]|[(n & x & E)|[E|[q E]]]]; rewrite E.
  - reflexivity.
  - replace (dict_get (ha_result (py "200: OK")) (py "ha_result"))
      with (PStr (py "200: OK")) by reflexivity.
    destruct (_ && _); eexists; split; reflexivity.
  - replace (dict_get (ha_result (py "Request error: Volume_Float_Conversion"))
               (py "ha_result"))
      with (PStr (py "Request error: Volume_Float_Conversion")) by reflexivity.
    destruct (_ && _); eexists; split; reflexivity.
  - unfold post_and_report.
    destruct (requests_post (trace w) q) as [r|e].
    + match goal with
      | |- context [ha_result ?s] =>
          replace (dict_get (ha_result s) (py "ha_result")) with (PStr s)
            by reflexivity
      end.
      destruct (_ && _); eexists; split; reflexivity.
    + match goal with
      | |- context [ha_result ?s] =>
          replace (dict_get (ha_result s) (py "ha_result")) with (PStr s)
            by reflexivity
      end.
      destruct (_ && _); eexists; split; reflexivity.
Qed.

End OrchestratorProperties.

(** ** [get_valid_preference_names] *)

Lemma join_cons (sep x : pystr) (r : list pystr) :
  join sep (x :: r) = x ++ flat_map (fun n => sep ++ n) r.
Proof.
  revert x. induction r as [|y r IH]; intros x.
  - simpl. rewrite app_nil_r. reflexivity.
  - change (join sep (x :: y :: r)) with (x ++ sep ++ join sep (y :: r)).
    rewrite IH. simpl. rewrite <- !app_assoc. reflexivity.
Qed.

Lemma pref_names_loop_bound (rest : list pystr) (p : pystr) :
  pref_names_loop rest false (Some p) =
  Done (Some (p ++ flat_map (fun n => py ", " ++ n) rest)).
Proof.
  revert p. induction rest as [|n rest IH]; intros p.
  - simpl. rewrite app_nil_r. reflexivity.
  - change (pref_names_loop (n :: rest) false (Some p))
      with (pref_names_loop rest false (Some ((p ++ py ", ") ++ n))).
    rewrite IH. cbn [flat_map]. rewrite <- !app_assoc. reflexivity.
Qed.

(** X19: for at least one preference the loop builds
    ["Valid Preference Names (a, b, c)"], the names joined by [", "]; for
    none, [pref_names] is never bound and the function raises
    [UnboundLocalError]. *)
Theorem valid_preference_names (all_preferences : list pystr) :
  get_valid_preference_names all_preferences =
  match all_preferences with
  | [] => Failed UnboundLocalError
  | _ :: _ =>
      Done (py "Valid Preference Names (" ++ join (py ", ") all_preferences
            ++ py ")")
  end.
Proof.
  destruct all_preferences as [|n rest]; [reflexivity|].
  unfold get_valid_preference_names.
  change (pref_names_loop (n :: rest) true None)
    with (pref_names_loop rest false
            (Some (py "Valid Preference Names (" ++ n))).
  rewrite pref_names_loop_bound, join_cons.
  rewrite <- !app_assoc. reflexivity.
Qed.

(** ** White space in the entity text *)

Definition word_like (x : pystr) : Prop :=
  x <> [] /\ forallb (fun c => negb (isspace c)) x = true.

Lemma split_words_run (x rest cur : pystr) :
  forallb (fun c => negb (isspace c)) x = true ->
  split_words (x ++ rest) cur = split_words rest (rev x ++ cur).
Proof.
  revert cur. induction x as [|c x IH]; intros cur H; [reflexivity|].
  simpl in H. apply andb_true_iff in H. destruct H as [Hc Hx].
  apply negb_true_iff in Hc. simpl. rewrite Hc, (IH _ Hx).
  rewrite <- app_assoc. reflexivity.
Qed.

Lemma split_words_join (ws : list pystr) :
  Forall word_like ws -> split_words (join [32%N] ws) [] = ws.
Proof.
  induction ws as [|x ws IH]; intros H; [reflexivity|].
  inversion H as [|? ? [Hne Hx] Hws]; subst.
  destruct ws as [|y ws].
  - simpl. rewrite <- (app_nil_r x) at 1.
    rewrite (split_words_run _ _ _ Hx). simpl. rewrite app_nil_r.
    destruct (rev x) eqn:R.
    + apply (f_equal (@rev N)) in R. rewrite rev_involutive in R.
      contradiction.
    + rewrite <- R, rev_involutive. reflexivity.
  - change (join [32%N] (x :: y :: ws))
      with (x ++ 32%N :: join [32%N] (y :: ws)).
    rewrite (split_words_run _ _ _ Hx). rewrite app_nil_r.
    change (split_words (32%N :: join [32%N] (y :: ws)) (rev x))
      with (match rev x with
            | [] => split_words (join [32%N] (y :: ws)) []
            | _ :: _ => rev (rev x) :: split_words (join [32%N] (y :: ws)) []
            end).
    destruct (rev x) eqn:R.
    + apply (f_equal (@rev N)) in R. rewrite rev_involutive in R.
      contradiction.
    + rewrite <- R, rev_involutive, (IH Hws). reflexivity.
Qed.

Lemma split_words_word_like (s cur : pystr) :
  forallb (fun c => negb (isspace c)) cur = true ->
  Forall word_like (split_words s cur).
Proof.
  revert cur. induction s as [|c s IH]; intros cur H.
  - simpl. destruct cur as [|a cur]; constructor; [|constructor].
    split.
    + intros E. apply (f_equal (@rev N)) in E.
      rewrite rev_involutive in E. discriminate.
    + rewrite forallb_forall in *. intros x Hx. apply H, in_rev, Hx.
  - simpl. destruct (isspace c) eqn:Ec.
    + destruct cur as [|a cur]; [apply IH; reflexivity|].
      constructor; [|apply IH; reflexivity].
      split.
      * intros E. apply (f_equal (@rev N)) in E.
        rewrite rev_involutive in E. discriminate.
      * rewrite forallb_forall in *. intros x Hx. apply H, in_rev, Hx.
    + apply IH. simpl. rewrite Ec. exact H.
Qed.

(** X20: [" ".join(text.split())] keeps the words and is a normal form:
    splitting its result gives the same words, and normalising a second
    time changes nothing. *)
Theorem collapse_whitespace_idempotent (text : pystr) :
  split_words (collapse_whitespace text) [] = split_words text []
  /\ collapse_whitespace (collapse_whitespace text) = collapse_whitespace text.
Proof.
  assert (E : split_words (collapse_whitespace text) [] = split_words text []).
  { apply split_words_join, split_words_word_like. reflexivity. }
  split; [exact E|]. unfold collapse_whitespace at 1. rewrite E. reflexivity.
Qed.

Lemma in_join (c : N) (sep : pystr) (ws : list pystr) :
  In c (join sep ws) -> In c sep \/ exists x, In x ws /\ In c x.
Proof.
  induction ws as [|x ws IH]; [simpl; tauto|].
  rewrite join_cons. intros H. apply in_app_or in H. destruct H as [H|H].
  - right. exists x. split; [left; reflexivity | exact H].
  - apply in_flat_map in H. destruct H as (y & Hy & H).
    apply in_app_or in H. destruct H as [H|H]; [left; exact H|].
    right. exists y. split; [right; exact Hy | exact H].
Qed.

(** X21: in the normalised text the only white space is the single space:
    tabs, newlines and the other space characters are gone, and the text
    neither starts nor ends with white space. *)
Theorem collapse_whitespace_shape (text : pystr) :
  (forall c, In c (collapse_whitespace text) -> isspace c = true -> c = 32%N)
  /\ strip (collapse_whitespace text) = collapse_whitespace text.
Proof.
  pose proof (split_words_word_like text [] eq_refl) as W.
  unfold collapse_whitespace. split.
  - intros c Hc Hs. apply in_join in Hc. destruct Hc as [[<-|[]]|Hc];
      [reflexivity|].
    destruct Hc as (x & Hx & Hc). rewrite Forall_forall in W.
    destruct (W x Hx) as [_ F]. rewrite forallb_forall in F.
    specialize (F c Hc). rewrite Hs in F. discriminate.
  - set (ws := split_words text []) in *. clearbody ws.
    assert (L : forall ws, Forall word_like ws ->
                lstrip (join [32%N] ws) = join [32%N] ws).
    { intros l Hl. destruct l as [|x l]; [reflexivity|].
      inversion Hl as [|? ? [Hne Hx] _]; subst. rewrite join_cons.
      destruct x as [|a x]; [contradiction|]. simpl in Hx.
      apply andb_true_iff in Hx. destruct Hx as [Ha _].
      apply negb_true_iff in Ha. simpl. rewrite Ha. reflexivity. }
    assert (R : forall ws, Forall word_like ws ->
                rstrip (join [32%N] ws) = join [32%N] ws).
    { intros l Hl. induction Hl as [|x l [Hne Hx] Hl IH]; [reflexivity|].
      destruct l as [|y l].
      - simpl. destruct (rev x) as [|a r] eqn:E.
        + apply (f_equal (@rev N)) in E. rewrite rev_involutive in E.
          contradiction.
        + assert (Ha : isspace a = false).
          { rewrite forallb_forall in Hx. apply negb_true_iff, Hx, in_rev.
            rewrite E. left. reflexivity. }
          apply rstrip_fixed_rev. rewrite E. simpl. rewrite Ha. reflexivity.
      - change (join [32%N] (x :: y :: l))
          with (x ++ 32%N :: join [32%N] (y :: l)).
        apply rstrip_fixed_rev in IH. apply rstrip_fixed_rev.
        assert (J : join [32%N] (y :: l) <> []).
        { inversion Hl as [|? ? [Hy _] _]; subst. rewrite join_cons.
          destruct y; [contradiction | discriminate]. }
        remember (join [32%N] (y :: l)) as j eqn:Ej. clear Ej.
        rewrite rev_app_distr.
        change (rev (32%N :: j)) with (rev j ++ [32%N]).
        destruct (lstrip_fixed _ IH) as [K|(a & r & K & Ha)].
        * exfalso. apply J. apply (f_equal (@rev N)) in K.
          rewrite rev_involutive in K. exact K.
        * rewrite K. simpl. rewrite Ha. reflexivity. }
    unfold strip. rewrite (L ws W). apply (R ws W).
Qed.

(** ** [set_openAI_model] *)

(** X22: whatever name is passed, the model that is set is one of the
    three known ones, an unknown name giving ["gpt-4o-mini"]; the verbosity
    ends as ["medium"] for ["gpt-4o-mini"] and as ["low"] for the other
    two. *)
Theorem set_model_is_known (model m0 v0 : pystr) :
  let calls := set_openAI_model model in
  (model = py "gpt-5-mini"
   /\ final_model calls m0 = py "gpt-5-mini"
   /\ final_verbosity calls v0 = py "low")
  \/ (model = py "gpt-5-nano"
      /\ final_model calls m0 = py "gpt-5-nano"
      /\ final_verbosity calls v0 = py "low")
  \/ (model <> py "gpt-5-mini" /\ model <> py "gpt-5-nano"
      /\ final_model calls m0 = py "gpt-4o-mini"
      /\ final_verbosity calls v0 = py "medium").
Proof.
  unfold set_openAI_model.
  destruct (str_eqb model (py "gpt-5-mini")) eqn:E1.
  - left. apply str_eqb_eq in E1. repeat split; assumption || reflexivity.
  - destruct (str_eqb model (py "gpt-5-nano")) eqn:E2.
    + right; left. apply str_eqb_eq in E2.
      repeat split; assumption || reflexivity.
    + right; right. split; [|split; [|split; reflexivity]].
      * intros H. apply str_eqb_eq in H. congruence.
      * intros H. apply str_eqb_eq in H. congruence.
Qed.

(** ** [get_ha_entity_info] *)

Section EntityInfoProperties.

Variable is_word : N -> bool.
Variable read_lines : pystr -> option (list pystr).
Variable json_dumps : pyval -> pystr.
Variable post_template : pystr -> list (pystr * pystr) -> pystr -> http_outcome.
Variable self : hagpt.

Local Abbreviation entity_info :=
  (get_ha_entity_info is_word read_lines json_dumps post_template self).
Local Abbreviation search := (search_intelligence_level is_word).

Lemma find_state_eq (s : pystr) :
  find_state is_word s =
  if startswith s (py "state:")
     && match skipn 6 s with c :: _ => is_word c | [] => false end
  then Some (take_while is_word (skipn 6 s))
  else match s with
       | [] => None
       | c :: r => if N.eqb c 10 then None else find_state is_word r
       end.
Proof. destruct s; reflexivity. Qed.

Lemma search_eq (text : pystr) :
  search text =
  match
    (if startswith text (py "input_select.intelligence_level")
     then find_state is_word (skipn 31 text) else None)
  with
  | Some level => Some level
  | None => match text with [] => None | _ :: r => search r end
  end.
Proof. destruct text; reflexivity. Qed.

Lemma take_while_split (f : N -> bool) (s : pystr) :
  exists rest,
    s = take_while f s ++ rest
    /\ forallb f (take_while f s) = true
    /\ match rest with c :: _ => f c = false | [] => True end.
Proof.
  induction s as [|c s (rest & E & F & R)]; simpl.
  - exists []. repeat split.
  - destruct (f c) eqn:Fc.
    + exists rest. simpl. rewrite Fc, F. rewrite <- E. repeat split. exact R.
    + exists (c :: s). repeat split. exact Fc.
Qed.

Lemma find_state_sound (s : pystr) :
  forall level,
  find_state is_word s = Some level ->
  exists mid rest,
    s = mid ++ py "state:" ++ level ++ rest
    /\ ~ In 10%N mid
    /\ level <> []
    /\ forallb is_word level = true
    /\ match rest with c :: _ => is_word c = false | [] => True end.
Proof.
  induction s as [|c s IH]; intros level; rewrite find_state_eq.
  - discriminate.
  - destruct (startswith (c :: s) (py "state:") && _) eqn:G.
    + apply andb_true_iff in G. destruct G as [G W].
      apply startswith_app in G. destruct G as [r G].
      rewrite G in W |- *.
      change (skipn 6 (py "state:" ++ r)) with r in W |- *.
      intros H. injection H as <-.
      destruct (take_while_split is_word r) as (rest & E & F & R).
      exists [], rest. change ([] ++ py "state:" ++ take_while is_word r ++ rest)
        with (py "state:" ++ take_while is_word r ++ rest).
      rewrite <- E. repeat split; auto.
      destruct r as [|a r]; [discriminate|]. simpl. rewrite W. discriminate.
    + destruct (N.eqb_spec c 10) as [->|Hc]; [discriminate|].
      intros H. destruct (IH _ H) as (mid & rest & E & M & L & F & R).
      exists (c :: mid), rest. rewrite E. repeat split; auto.
      intros [K|K]; [congruence | contradiction].
Qed.

(** X23: the intelligence level that is found is a non-empty run of word
    characters, as long as it can be, that follows ["state:"] after the
    first fitting ["input_select.intelligence_level"], with no newline in
    between. *)
Theorem intelligence_level_sound (text level : pystr) :
  search text = Some level ->
  exists pre mid rest,
    text = pre ++ py "input_select.intelligence_level" ++ mid
           ++ py "state:" ++ level ++ rest
    /\ ~ In 10%N mid
    /\ level <> []
    /\ forallb is_word level = true
    /\ match rest with c :: _ => is_word c = false | [] => True end.
Proof.
  revert level. induction text as [|c text IH]; intros level;
    rewrite search_eq.
  - discriminate.
  - destruct (startswith (c :: text) (py "input_select.intelligence_level"))
      eqn:S.
    + apply startswith_app in S. destruct S as [r S].
      replace (skipn 31 (c :: text)) with r
        by (rewrite S; reflexivity).
      destruct (find_state is_word r) as [l|] eqn:F.
      * intros H. injection H as <-.
        destruct (find_state_sound _ _ F) as (mid & rest & E & M & L & W & R).
        exists [], mid, rest. rewrite S, E. repeat split; auto.
      * intros H.
        destruct (IH _ H) as (pre & mid & rest & E & M & L & W & R).
        exists (c :: pre), mid, rest. rewrite E. repeat split; auto.
    + intros H.
      destruct (IH _ H) as (pre & mid & rest & E & M & L & W & R).
      exists (c :: pre), mid, rest. rewrite E. repeat split; auto.
Qed.

Lemma find_state_complete (mid tail : pystr) (c : N) :
  ~ In 10%N mid -> is_word c = true ->
  find_state is_word (mid ++ py "state:" ++ c :: tail) <> None.
Proof.
  intros M W. induction mid as [|a mid IH]; rewrite find_state_eq.
  - change (skipn 6 ([] ++ py "state:" ++ c :: tail)) with (c :: tail).
    replace (startswith ([] ++ py "state:" ++ c :: tail) (py "state:"))
      with true by (symmetry; apply startswith_app; eexists; reflexivity).
    rewrite W. discriminate.
  - destruct (startswith _ (py "state:") && _); [discriminate|].
    change ((a :: mid) ++ py "state:" ++ c :: tail)
      with (a :: (mid ++ py "state:" ++ c :: tail)).
    cbv beta iota. destruct (N.eqb_spec a 10) as [->|Ha].
    + exfalso. apply M. left. reflexivity.
    + apply IH. intros K. apply M. right. exact K.
Qed.

(** X24: the search does find a level whenever the text holds the entity
    id, then ["state:"] with a word character after it, and no newline
    between the two. *)
Theorem intelligence_level_complete (pre mid tail : pystr) (c : N) :
  ~ In 10%N mid -> is_word c = true ->
  search (pre ++ py "input_select.intelligence_level" ++ mid
          ++ py "state:" ++ c :: tail) <> None.
Proof.
  intros M W. induction pre as [|a pre IH]; rewrite search_eq.
  - replace (startswith ([] ++ py "input_select.intelligence_level" ++ mid
                         ++ py "state:" ++ c :: tail)
               (py "input_select.intelligence_level"))
      with true by (symmetry; apply startswith_app; eexists; reflexivity).
    change (skipn 31 ([] ++ py "input_select.intelligence_level" ++ mid
                      ++ py "state:" ++ c :: tail))
      with (mid ++ py "state:" ++ c :: tail).
    pose proof (find_state_complete mid tail c M W) as F.
    destruct (find_state is_word _); [discriminate | contradiction].
  - destruct (if startswith _ _ then _ else None); [discriminate|].
    change ((a :: pre) ++ py "input_select.intelligence_level" ++ mid
            ++ py "state:" ++ c :: tail)
      with (a :: (pre ++ py "input_select.intelligence_level" ++ mid
                  ++ py "state:" ++ c :: tail)).
    cbv beta iota. exact IH.
Qed.

Lemma connection_calls_map (calls : list connection_call) :
  connection_calls (map Connection calls) = calls.
Proof.
  unfold connection_calls. induction calls as [|c calls IH]; simpl;
    [reflexivity | rewrite IH; reflexivity].
Qed.

Lemma template_posts_map (calls : list connection_call) :
  template_posts (map Connection calls) = 0%nat.
Proof.
  unfold template_posts. induction calls as [|c calls IH]; simpl;
    [reflexivity | exact IH].
Qed.

(** X25: when [get_ha_entity_info] fails, the model is left alone: no call
    reaches the connection.  An empty file name and a missing file fail
    before anything is sent; never is more than one request sent. *)
Theorem entity_info_failure_leaves_model (input_file : pystr) (e : error) :
  fst (entity_info input_file) = Failed e ->
  connection_calls (snd (entity_info input_file)) = []
  /\ (e = Builtin ValueError \/ e = FileNotFoundError ->
      snd (entity_info input_file) = [])
  /\ (template_posts (snd (entity_info input_file)) <= 1)%nat.
Proof.
  assert (Z0 : (template_posts [] <= 1)%nat) by (unfold template_posts; simpl; lia).
  unfold get_ha_entity_info.
  destruct input_file as [|c f];
    [intros _; split; [reflexivity | split; [reflexivity | exact Z0]]|].
  destruct (read_lines (c :: f)) as [lines|];
    [|intros _; split; [reflexivity | split; [reflexivity | exact Z0]]].
  cbv zeta. destruct (post_template _ _ _) as [r|d].
  - destruct (negb (status_code r =? 200)%Z); [|discriminate].
    unfold fst, snd. intros H. inversion H; subst e.
    split; [reflexivity|]. split; [intros [K|K]; discriminate|].
    unfold template_posts; simpl; lia.
  - unfold fst, snd. intros H. inversion H; subst e.
    split; [reflexivity|]. split; [intros [K|K]; discriminate|].
    unfold template_posts; simpl; lia.
Qed.

(** X26: [get_ha_entity_info] returns only for a response of status
    exactly 200 (a 201 fails like a 404), after one request to
    [<ha_url>/api/template] with the bearer token; what it returns is the
    body with escaped newlines decoded and white space collapsed, hence a
    text in normal form. *)
Theorem entity_info_success (input_file info : pystr) :
  fst (entity_info input_file) = Done info ->
  exists lines body r,
    read_lines input_file = Some lines
    /\ post_template (ha_url self ++ py "/api/template")
         [(py "Authorization", py "Bearer " ++ ha_token self);
          (py "Content-Type", py "application/json")] body = Response r
    /\ status_code r = 200%Z
    /\ info = collapse_whitespace (replace_escaped_newlines (text r))
    /\ collapse_whitespace info = info
    /\ template_posts (snd (entity_info input_file)) = 1%nat.
Proof.
  unfold get_ha_entity_info.
  destruct input_file as [|c f]; [discriminate|].
  destruct (read_lines (c :: f)) as [lines|]; [|discriminate].
  cbv zeta.
  destruct (post_template _ _ _) as [r|d] eqn:P; [|discriminate].
  destruct (negb (status_code r =? 200)%Z) eqn:S; [discriminate|].
  unfold fst, snd. intros H. inversion H; subst info. clear H.
  apply negb_false_iff, Z.eqb_eq in S.
  eexists lines, _, r. split; [reflexivity|]. split; [exact P|].
  split; [exact S|]. split; [reflexivity|].
  split; [apply collapse_whitespace_idempotent|].
  cbv zeta.
  match goal with
  | |- template_posts (?sent ++ map Connection ?c) = _ =>
      generalize c; intros calls
  end.
  unfold template_posts. rewrite filter_app, length_app.
  fold (template_posts (map Connection calls)).
  rewrite template_posts_map. reflexivity.
Qed.

(** X27: on success the model follows the intelligence level found in the
    text: ["High"] selects ["gpt-5-mini"], ["Medium"] ["gpt-5-nano"], any
    other level ["gpt-4o-mini"] with verbosity ["medium"]; when the text
    holds no level, the connection is not touched. *)
Theorem entity_info_model_selection (input_file info m0 v0 : pystr) :
  fst (entity_info input_file) = Done info ->
  let calls := connection_calls (snd (entity_info input_file)) in
  match search info with
  | None => calls = []
  | Some level =>
      final_model calls m0 = model_of_level level
      /\ final_verbosity calls v0 =
         (if str_eqb (model_of_level level) (py "gpt-4o-mini")
          then py "medium" else py "low")
  end.
Proof.
  unfold get_ha_entity_info.
  destruct input_file as [|c f]; [discriminate|].
  destruct (read_lines (c :: f)) as [lines|]; [|discriminate].
  cbv zeta.
  destruct (post_template _ _ _) as [r|d]; [|discriminate].
  destruct (negb (status_code r =? 200)%Z); [discriminate|].
  unfold fst, snd. intros H. inversion H; subst info. clear H.
  cbv zeta.
  match goal with
  | |- context [connection_calls (?sent ++ map Connection ?c)] =>
      replace (connection_calls (sent ++ map Connection c)) with c
        by (unfold connection_calls; rewrite flat_map_app;
            fold (connection_calls (map Connection c));
            rewrite connection_calls_map; reflexivity)
  end.
  destruct (search _) as [level|]; [|reflexivity].
  unfold model_of_level.
  destruct (str_eqb level (py "High")); [split; reflexivity|].
  destruct (str_eqb level (py "Medium")); split; reflexivity.
Qed.

(** X28: a transport failure of the entity request is not caught here, and
    neither is a status other than 200: both leave the function as an
    exception, after the request and before any model is selected. *)
Theorem entity_info_raises (input_file : pystr) (lines : list pystr) :
  input_file <> [] ->
  read_lines input_file = Some lines ->
  let outcome :=
    post_template (ha_url self ++ py "/api/template")
      [(py "Authorization", py "Bearer " ++ ha_token self);
       (py "Content-Type", py "application/json")]
      (json_dumps
         (PDict [(py "template",
                  PStr (entity_template
                          (filter (fun l => match l with
                                            | [] => false
                                            | _ :: _ => true
                                            end)
                                  (map strip lines))))])) in
  match outcome with
  | RequestException d =>
      fst (entity_info input_file) = Failed (RequestError d)
  | Response r =>
      status_code r <> 200%Z ->
      fst (entity_info input_file) = Failed RuntimeError
  end.
Proof.
  intros Hn Hr outcome. subst outcome. unfold get_ha_entity_info.
  destruct input_file as [|c f]; [contradiction|].
  rewrite Hr. cbv zeta.
  destruct (post_template _ _ _) as [r|d]; [|reflexivity].
  intros Hs. apply Z.eqb_neq in Hs. rewrite Hs. reflexivity.
Qed.

End EntityInfoProperties.

(** ** Start-up *)

Section LoggingProperties.

Variable str_lower : pystr -> pystr.
Variable float_of_str : pystr -> option pyfloat.
Variable requests_post : list event -> request -> http_outcome.
Variable self : hagpt.

Lemma debug_switch_world (service domain action : pystr)
    (target data dataopt variables : option dict) (w : world) :
  split_once 46 service = Some (domain, action) ->
  default_branch service data variables = true ->
  dict_get (or_empty target) (py "entity_id") = PStr (py "switch.debug") ->
  snd (_call_ha_service float_of_str requests_post self
         service target data dataopt variables w) =
  setting_written (py "Log Mode")
    (if str_eqb action (py "turn_on") then PStr (py "Debug")
     else PStr (py "Info")) w.
Proof.
  intros Hs Hd He.
  destruct (default_branch_conditions float_of_str _ _ _ Hd) as (H1 & H2 & H3).
  unfold _call_ha_service. cbv zeta. rewrite Hs, H1, H2, H3, He.
  replace (eq_str (PStr (py "switch.debug")) (py "switch.debug")) with true
    by reflexivity.
  rewrite set_debug_switch. reflexivity.
Qed.

(** X29: what the debug switch writes is what [_configure_logging] reads
    at the next start: after [turn_on] the stored ["Log Mode"] configures
    the level DEBUG, after any other action the level INFO. *)
Theorem debug_switch_configures_logging (service domain action : pystr)
    (target data dataopt variables : option dict) (w : world) :
  str_lower (py "Debug") = py "debug" ->
  str_lower (py "Info") = py "info" ->
  split_once 46 service = Some (domain, action) ->
  default_branch service data variables = true ->
  dict_get (or_empty target) (py "entity_id") = PStr (py "switch.debug") ->
  let w' := snd (_call_ha_service float_of_str requests_post self
                   service target data dataopt variables w) in
  _configure_logging str_lower (dict_get (settings w') (py "Log Mode")) =
  Return (if str_eqb action (py "turn_on") then DEBUG else INFO).
Proof.
  intros L1 L2 Hs Hd He w'. subst w'.
  rewrite (debug_switch_world _ _ _ _ _ _ _ _ Hs Hd He).
  unfold setting_written, settings. rewrite dict_get_set_same.
  destruct (str_eqb action (py "turn_on")); simpl.
  - rewrite L1. reflexivity.
  - rewrite L2. reflexivity.
Qed.

End LoggingProperties.

(** ** Closed instances, continued *)

Lemma script_call_takes_priority_witness :
  let run :=
    _call_ha_service Reference.float_of_str (Sample.answers 200 "") Sample.hub
      (py "script.morning") (Sample.entity "switch.debug")
      (Some [(py "ignored", PInt 1)]) None
      (Some [(py "mode", PStr (py "soft"))]) Sample.fresh in
  trace (snd run) =
    [HttpPost
       (primary_request Sample.hub
          (py "http://ha.local:8123/api/services/script/morning")
          [(py "entity_id", PStr (py "switch.debug"));
           (py "variables", PDict [(py "mode", PStr (py "soft"))])])]
  /\ settings (snd run) = [].
Proof.
  apply (script_call_takes_priority Reference.float_of_str
           (Sample.answers 200 "") Sample.hub (py "script.morning")
           (Sample.entity "switch.debug") (Some [(py "ignored", PInt 1)]) None
           (Some [(py "mode", PStr (py "soft"))]) Sample.fresh);
    reflexivity.
Defined.

Lemma select_option_real_entity_witness :
  let run :=
    _call_ha_service Reference.float_of_str (Sample.answers 200 "") Sample.hub
      (py "input_select.select_option")
      (Sample.entity "input_select.intelligence_level")
      (Some [(py "option", PStr (py "High"))]) None None Sample.fresh in
  run =
    post_and_report (Sample.answers 200 "")
      (primary_request Sample.hub
         (py "http://ha.local:8123/api/services/input_select/select_option")
         [(py "entity_id", PStr (py "input_select.intelligence_level"));
          (py "option", PStr (py "High"))]) Sample.fresh
  /\ settings (snd run) = [].
Proof.
  apply (select_option_real_entity Reference.float_of_str
           (Sample.answers 200 "") Sample.hub
           (Sample.entity "input_select.intelligence_level")
           (Some [(py "option", PStr (py "High"))]) None None Sample.fresh);
    reflexivity.
Defined.

Lemma notify_payload_is_data_witness :
  let run :=
    _call_ha_service Reference.float_of_str (Sample.answers 200 "") Sample.hub
      (py "notify.mobile_app") (Sample.entity "notify.mobile_app")
      (Some [(py "message", PStr (py "Dinner"))]) None None Sample.fresh in
  run =
    post_and_report (Sample.answers 200 "")
      (primary_request Sample.hub
         (py "http://ha.local:8123/api/services/notify/mobile_app")
         [(py "message", PStr (py "Dinner"))]) Sample.fresh.
Proof.
  apply (notify_payload_is_data Reference.float_of_str
           (Sample.answers 200 "") Sample.hub (py "notify.mobile_app")
           (Sample.entity "notify.mobile_app")
           (Some [(py "message", PStr (py "Dinner"))]) None None Sample.fresh);
    reflexivity.
Defined.

Lemma ordinary_device_call_witness :
  let run :=
    _call_ha_service Reference.float_of_str (Sample.answers 200 "") Sample.hub
      (py "light.turn_on") (Sample.entity "light.kitchen")
      (Some [(py "brightness", PInt 80)]) None None Sample.fresh in
  trace (snd run) =
    [HttpPost
       (primary_request Sample.hub
          (py "http://ha.local:8123/api/services/light/turn_on")
          [(py "entity_id", PStr (py "light.kitchen"));
           (py "brightness", PInt 80)])]
  /\ settings (snd run) = [].
Proof.
  apply (ordinary_device_call Reference.float_of_str (Sample.answers 200 "")
           Sample.hub (py "light.turn_on") (py "light") (py "turn_on")
           (Sample.entity "light.kitchen") (Some [(py "brightness", PInt 80)])
           None None Sample.fresh);
    reflexivity.
Defined.

Lemma merged_payload_lookup_witness :
  let data := [(py "entity_id", PStr (py "light.hall"));
               (py "brightness", PInt 80)] in
  NoDup (map fst data)
  /\ dict_get (dict_update [(py "entity_id", PStr (py "light.kitchen"))] data)
       (py "entity_id") = PStr (py "light.hall").
Proof.
  intros data.
  assert (H : NoDup (map fst data)).
  { repeat constructor; simpl; intros K; intuition discriminate. }
  split; [exact H|].
  apply (merged_payload_lookup (PStr (py "light.kitchen")) data
           (py "entity_id") H). reflexivity.
Defined.

Lemma sent_request_shape_witness :
  let q :=
    secondary_request Sample.hub
      (volume_payload (SpecFloat.S754_finite false 7036874417766400 (-47))) in
  timeout q = 10%Z
  /\ In (py "Content-Type", py "application/json") (headers q)
  /\ ((startswith (url q) (ha_url Sample.hub ++ py "/api/services/") = true
       /\ In (py "Authorization", py "Bearer " ++ ha_token Sample.hub)
            (headers q))
      \/ (url q = base_url Sample.hub ++ py "/control"
          /\ headers q = [(py "Content-Type", py "application/json")]
          /\ exists level, json q = PDict (volume_payload level))).
Proof.
  apply (sent_request_shape Reference.float_of_str (Sample.answers 200 "")
           Sample.hub (py "media_player.volume_set")
           (Sample.entity "media_player.base_speaker")
           (Some [(py "volume_level", PStr (py "50"))]) None None
           Sample.fresh).
  vm_compute. reflexivity.
Defined.

Lemma volume_of_wrong_type_raises_witness :
  _call_ha_service Reference.float_of_str (Sample.answers 200 "") Sample.hub
    (py "media_player.volume_set") (Sample.entity "media_player.base_speaker")
    (Some [(py "volume_level", PList [PInt 50])]) None None Sample.fresh =
  (Raise TypeError, Sample.fresh).
Proof.
  apply (volume_of_wrong_type_raises Reference.float_of_str
           (Sample.answers 200 "") Sample.hub
           (py "media_player.volume_set") (py "media_player") (py "volume_set")
           (Sample.entity "media_player.base_speaker")
           (Some [(py "volume_level", PList [PInt 50])]) None None
           Sample.fresh);
    try reflexivity; try exact I.
Defined.

Lemma volume_of_integer_witness :
  _call_ha_service Reference.float_of_str (Sample.answers 200 "") Sample.hub
    (py "media_player.volume_set") (Sample.entity "media_player.base_speaker")
    (Some [(py "volume_level", PInt 50)]) None None Sample.fresh =
  post_and_report (Sample.answers 200 "")
    (secondary_request Sample.hub
       (volume_payload (SpecFloat.S754_finite false 7036874417766400 (-47))))
    Sample.fresh.
Proof.
  apply (volume_of_integer Reference.float_of_str (Sample.answers 200 "")
           Sample.hub (py "media_player.volume_set") (py "media_player")
           (py "volume_set") (Sample.entity "media_player.base_speaker")
           (Some [(py "volume_level", PInt 50)]) None None Sample.fresh 50);
    reflexivity.
Defined.

Lemma preferences_without_data_not_intercepted_witness :
  let run :=
    _call_ha_service Reference.float_of_str (Sample.answers 200 "") Sample.hub
      (py "input_select.select_option")
      (Sample.entity "input_select.preferences") None None None
      Sample.fresh in
  run =
    post_and_report (Sample.answers 200 "")
      (primary_request Sample.hub
         (py "http://ha.local:8123/api/services/input_select/select_option")
         [(py "entity_id", PStr (py "input_select.preferences"))]) Sample.fresh
  /\ settings (snd run) = [].
Proof.
  apply (preferences_without_data_not_intercepted Reference.float_of_str
           (Sample.answers 200 "") Sample.hub
           (Sample.entity "input_select.preferences") None None None
           Sample.fresh);
    reflexivity.
Defined.

Lemma non_object_reply_raises_witness :
  _clean_ai_response Reference.loads (SampleInfo.js "['light.kitchen']") =
  Raise AttributeError.
Proof.
  apply (non_object_reply_raises Reference.loads
           (SampleInfo.js "['light.kitchen']")
           (PList [PStr (py "light.kitchen")])).
  - vm_compute. reflexivity.
  - discriminate.
Defined.

Lemma reply_without_backquote_is_trimmed_witness :
  strip_fences (py "  Good morning!  ") = py "Good morning!".
Proof.
  apply (reply_without_backquote_is_trimmed Reference.loads
           (py "  Good morning!  ")).
  vm_compute. intuition discriminate.
Defined.

Lemma no_service_no_dispatch_witness :
  process_ai_response Reference.loads Reference.float_of_str
    (Sample.answers 200 "") AsciiRuntime.int_of_str Sample.hub
    (SampleInfo.js "{'service': '', 'response_text': 'Hello'}") Sample.fresh =
  Some (Return {| p_service := PStr []; p_target := PDict [];
                  p_data := PDict []; p_dataopt := PDict [];
                  p_variables := PDict [];
                  p_response_text := PStr (py "Hello");
                  p_ha_result := PNone |}, Sample.fresh).
Proof.
  apply (no_service_no_dispatch Reference.loads Reference.float_of_str
           (Sample.answers 200 "") AsciiRuntime.int_of_str Sample.hub
           (SampleInfo.js "{'service': '', 'response_text': 'Hello'}")
           Sample.fresh
           {| service := PStr []; target := PDict []; variables := PDict [];
              response_text := PStr (py "Hello"); data := PDict [] |});
    vm_compute; reflexivity.
Defined.

Lemma plain_text_reply_witness :
  process_ai_response Reference.loads Reference.float_of_str
    Sample.times_out AsciiRuntime.int_of_str Sample.hub
    (py "The kitchen light is on.") Sample.fresh =
  Some (Return {| p_service := PNone; p_target := PDict [];
                  p_data := PDict []; p_dataopt := PDict [];
                  p_variables := PDict [];
                  p_response_text := PStr (py "The kitchen light is on.");
                  p_ha_result := PNone |}, Sample.fresh).
Proof.
  apply (plain_text_reply Reference.loads Reference.float_of_str
           Sample.times_out AsciiRuntime.int_of_str Sample.hub
           (py "The kitchen light is on.") Sample.fresh).
  vm_compute. reflexivity.
Defined.

Lemma processed_fields_pass_through_witness :
  exists i,
    _clean_ai_response Reference.loads
      (SampleInfo.js "{'service': 'light.turn_on', 'target': {'entity_id': 'light.kitchen'}, 'response_text': 'Done'}")
    = Return i
    /\ PStr (py "light.turn_on") = service i
    /\ PDict [(py "entity_id", PStr (py "light.kitchen"))] = target i
    /\ PDict [] = data i /\ PDict [] = variables i
    /\ PStr (py "Done") = response_text i
    /\ PDict [] = PDict []
    /\ (PStr (py "200: OK") = PNone <-> truthy (service i) = false)
    /\ (truthy (service i) = false ->
        {| settings := [];
           trace := [HttpPost
             (primary_request Sample.hub
                (py "http://ha.local:8123/api/services/light/turn_on")
                [(py "entity_id", PStr (py "light.kitchen"))])] |}
        = Sample.fresh).
Proof.
  apply (processed_fields_pass_through Reference.loads Reference.float_of_str
           (Sample.answers 200 "[]") AsciiRuntime.int_of_str Sample.hub
           (SampleInfo.js "{'service': 'light.turn_on', 'target': {'entity_id': 'light.kitchen'}, 'response_text': 'Done'}")
           Sample.fresh
           {| settings := [];
              trace := [HttpPost
                (primary_request Sample.hub
                   (py "http://ha.local:8123/api/services/light/turn_on")
                   [(py "entity_id", PStr (py "light.kitchen"))])] |}
           {| p_service := PStr (py "light.turn_on");
              p_target := PDict [(py "entity_id", PStr (py "light.kitchen"))];
              p_data := PDict []; p_dataopt := PDict [];
              p_variables := PDict [];
              p_response_text := PStr (py "Done");
              p_ha_result := PStr (py "200: OK") |}).
  vm_compute. reflexivity.
Defined.

Lemma null_target_fails_after_success_witness :
  process_ai_response Reference.loads Reference.float_of_str
    (Sample.answers 200 "[]") AsciiRuntime.int_of_str Sample.hub
    (SampleInfo.js "{'service': 'light.turn_on', 'target': null}")
    Sample.fresh =
  Some (Raise AttributeError,
        {| settings := [];
           trace := [HttpPost
             (primary_request Sample.hub
                (py "http://ha.local:8123/api/services/light/turn_on")
                [(py "entity_id", PNone)])] |}).
Proof.
  refine (null_target_fails_after_success Reference.loads
            Reference.float_of_str (Sample.answers 200 "[]")
            AsciiRuntime.int_of_str Sample.hub
            (SampleInfo.js "{'service': 'light.turn_on', 'target': null}")
            Sample.fresh _
            {| service := PStr (py "light.turn_on"); target := PNone;
               variables := PDict []; response_text := PStr [];
               data := PDict [] |}
            (py "light.turn_on") (py "200: OK") (Some []) (Some [])
            _ _ _ _ _ _ _);
    try (vm_compute; reflexivity). discriminate.
Defined.

Lemma process_follows_dispatch_witness :
  exists r,
    process_ai_response Reference.loads Reference.float_of_str
      (Sample.answers 404 "Not Found") AsciiRuntime.int_of_str Sample.hub
      (SampleInfo.js "{'service': 'light.turn_on', 'target': {'entity_id': 'light.attic'}}")
      Sample.fresh =
    Some (Return r,
          {| settings := [];
             trace := [HttpPost
               (primary_request Sample.hub
                  (py "http://ha.local:8123/api/services/light/turn_on")
                  [(py "entity_id", PStr (py "light.attic"))])] |})
    /\ p_ha_result r = PStr (py "404: Not Found").
Proof.
  refine (process_follows_dispatch Reference.loads Reference.float_of_str
            (Sample.answers 404 "Not Found") AsciiRuntime.int_of_str
            Sample.hub
            (SampleInfo.js "{'service': 'light.turn_on', 'target': {'entity_id': 'light.attic'}}")
            Sample.fresh
            {| service := PStr (py "light.turn_on");
               target := PDict [(py "entity_id", PStr (py "light.attic"))];
               variables := PDict []; response_text := PStr [];
               data := PDict [] |}
            (py "light.turn_on") [(py "entity_id", PStr (py "light.attic"))]
            (Some []) (Some []) _ _ _ _ _ _);
    try (vm_compute; reflexivity). discriminate.
Defined.

Lemma intelligence_level_sound_witness :
  exists pre mid rest,
    py "switch.fan (Fan) state:on input_select.intelligence_level (Level) state:High x"
    = pre ++ py "input_select.intelligence_level" ++ mid
      ++ py "state:" ++ py "High" ++ rest
    /\ ~ In 10%N mid
    /\ py "High" <> []
    /\ forallb AsciiRuntime.is_word (py "High") = true
    /\ match rest with
       | c :: _ => AsciiRuntime.is_word c = false
       | [] => True
       end.
Proof.
  apply (intelligence_level_sound AsciiRuntime.is_word
           (py "switch.fan (Fan) state:on input_select.intelligence_level (Level) state:High x")
           (py "High")).
  vm_compute. reflexivity.
Defined.

Lemma intelligence_level_complete_witness :
  search_intelligence_level AsciiRuntime.is_word
    (py "switch.fan (Fan) state:on " ++ py "input_select.intelligence_level"
     ++ py " (Level) " ++ py "state:" ++ 76%N :: py "ow") <> None.
Proof.
  apply (intelligence_level_complete AsciiRuntime.is_word
           (py "switch.fan (Fan) state:on ") (py " (Level) ") (py "ow") 76%N).
  - vm_compute. intuition discriminate.
  - reflexivity.
Defined.

Lemma entity_info_failure_leaves_model_witness :
  connection_calls
    (snd (get_ha_entity_info AsciiRuntime.is_word SampleInfo.entity_file
            AsciiRuntime.json_dumps (SampleInfo.renders 503 "unavailable")
            Sample.hub (py "entities.txt"))) = []
  /\ (RuntimeError = Builtin ValueError \/ RuntimeError = FileNotFoundError ->
      snd (get_ha_entity_info AsciiRuntime.is_word SampleInfo.entity_file
             AsciiRuntime.json_dumps (SampleInfo.renders 503 "unavailable")
             Sample.hub (py "entities.txt")) = [])
  /\ (template_posts
        (snd (get_ha_entity_info AsciiRuntime.is_word SampleInfo.entity_file
                AsciiRuntime.json_dumps (SampleInfo.renders 503 "unavailable")
                Sample.hub (py "entities.txt"))) <= 1)%nat.
Proof.
  apply (entity_info_failure_leaves_model AsciiRuntime.is_word
           SampleInfo.entity_file AsciiRuntime.json_dumps
           (SampleInfo.renders 503 "unavailable") Sample.hub
           (py "entities.txt") RuntimeError).
  vm_compute. reflexivity.
Defined.

Lemma entity_info_success_witness :
  exists lines body r,
    SampleInfo.entity_file (py "entities.txt") = Some lines
    /\ SampleInfo.renders 200 SampleInfo.rendered
         (ha_url Sample.hub ++ py "/api/template")
         [(py "Authorization", py "Bearer " ++ ha_token Sample.hub);
          (py "Content-Type", py "application/json")] body = Response r
    /\ status_code r = 200%Z
    /\ py "switch.fan (Fan) state:on input_select.intelligence_level (Intelligence Level) state:High"
       = collapse_whitespace (replace_escaped_newlines (text r))
    /\ collapse_whitespace
         (py "switch.fan (Fan) state:on input_select.intelligence_level (Intelligence Level) state:High")
       = py "switch.fan (Fan) state:on input_select.intelligence_level (Intelligence Level) state:High"
    /\ template_posts
         (snd (get_ha_entity_info AsciiRuntime.is_word SampleInfo.entity_file
                 AsciiRuntime.json_dumps
                 (SampleInfo.renders 200 SampleInfo.rendered)
                 Sample.hub (py "entities.txt"))) = 1%nat.
Proof.
  apply (entity_info_success AsciiRuntime.is_word SampleInfo.entity_file
           AsciiRuntime.json_dumps (SampleInfo.renders 200 SampleInfo.rendered)
           Sample.hub (py "entities.txt")).
  vm_compute. reflexivity.
Defined.

Lemma entity_info_model_selection_witness :
  let calls :=
    connection_calls
      (snd (get_ha_entity_info AsciiRuntime.is_word SampleInfo.entity_file
              AsciiRuntime.json_dumps
              (SampleInfo.renders 200 SampleInfo.rendered)
              Sample.hub (py "entities.txt"))) in
  final_model calls (py "gpt-5-nano") = py "gpt-5-mini"
  /\ final_verbosity calls (py "medium") = py "low".
Proof.
  apply (entity_info_model_selection AsciiRuntime.is_word
           SampleInfo.entity_file AsciiRuntime.json_dumps
           (SampleInfo.renders 200 SampleInfo.rendered) Sample.hub
           (py "entities.txt")
           (py "switch.fan (Fan) state:on input_select.intelligence_level (Intelligence Level) state:High")
           (py "gpt-5-nano") (py "medium")).
  vm_compute. reflexivity.
Defined.

Lemma entity_info_raises_witness :
  fst (get_ha_entity_info AsciiRuntime.is_word SampleInfo.entity_file
         AsciiRuntime.json_dumps SampleInfo.unreachable Sample.hub
         (py "entities.txt")) =
  Failed (RequestError (py "connection refused")).
Proof.
  refine (entity_info_raises AsciiRuntime.is_word SampleInfo.entity_file
            AsciiRuntime.json_dumps SampleInfo.unreachable Sample.hub
            (py "entities.txt")
            [py "switch.fan" ++ [10%N]; [10%N];
             py "  input_select.intelligence_level " ++ [10%N]] _ _).
  - discriminate.
  - reflexivity.
Defined.

Lemma debug_switch_configures_logging_witness :
  _configure_logging AsciiRuntime.str_lower
    (dict_get
       (settings
          (snd (_call_ha_service Reference.float_of_str Sample.times_out
                  Sample.hub (py "switch.turn_on")
                  (Sample.entity "switch.debug") None None None
                  Sample.fresh)))
       (py "Log Mode")) = Return DEBUG.
Proof.
  apply (debug_switch_configures_logging AsciiRuntime.str_lower
           Reference.float_of_str Sample.times_out Sample.hub
           (py "switch.turn_on") (py "switch") (py "turn_on")
           (Sample.entity "switch.debug") None None None Sample.fresh);
    reflexivity.
Defined.
